(** * The mutation resolvers of sick-fits-backend (src/resolvers/Mutation.js)

    A shallow embedding of the resolvers as programs over the calls they make
    to their collaborators (the Prisma binding [ctx.db], bcrypt, jsonwebtoken,
    crypto, the mail transport, the HTTP response), followed by an in-memory
    model of those collaborators and the properties of the resolvers.

    Left out of the embedding: the [parent] argument, which no resolver
    reads, and [info], which only selects the fields of what a database call
    returns; the calls here return whole rows. Numbers are integers (the
    timestamps and quantities of the file stay well inside the range in which
    JavaScript numbers are exact). *)

From Stdlib Require Import ZArith Ascii String Strings.Byte.
From stdpp Require Import base strings gmap list fin_maps infinite.

Set Warnings "-register-all".
Open Scope Z_scope.

(** ** JavaScript values *)

Inductive Val : Type :=
| VUndef
| VNull
| VBool (b : bool)
| VNum (n : Z)
| VStr (s : string)
| VArr (l : list Val)
| VObj (o : gmap string Val).

(** A JS object: own properties by name. *)
Abbreviation Obj := (gmap string Val).

(** [o.k]: a property that is not there reads as [undefined]. *)
Definition get (o : Obj) (k : string) : Val := default VUndef (o !! k).

(** [ctx.request.userId] is either unset or the string the session
    middleware put there; [!userId] holds for unset and for the empty string. *)
Definition truthy (userId : option string) : bool :=
  match userId with
  | None => false
  | Some s => negb (bool_decide (s = ""%string))
  end.

(** [String.prototype.toLowerCase] on the ASCII letters. *)
Definition lower_ascii (c : ascii) : ascii :=
  let n := nat_of_ascii c in
  if ((65 <=? n)%nat && (n <=? 90)%nat)%bool then ascii_of_nat (n + 32) else c.

Fixpoint toLowerCase (s : string) : string :=
  match s with
  | EmptyString => EmptyString
  | String c s' => String (lower_ascii c) (toLowerCase s')
  end.

(** [Buffer.prototype.toString("hex")]: two lower-case digits per byte. *)
Definition hex_digit (n : N) : ascii :=
  if (n <? 10)%N then ascii_of_N (48 + n) else ascii_of_N (87 + n).

Definition hex_byte (b : byte) : string :=
  let n := Byte.to_N b in
  String (hex_digit (n / 16)%N) (String (hex_digit (n mod 16)%N) EmptyString).

Fixpoint toString_hex (buf : list byte) : string :=
  match buf with
  | [] => EmptyString
  | b :: buf' => (hex_byte b ++ toString_hex buf')%string
  end.

(** ** The records of the data model *)

Record User := mkUser {
  user_id : string;
  user_name : string;
  user_email : string;
  user_password : string;
  user_resetToken : option string;
  user_resetTokenExpiry : option Z;
  user_permissions : list string
}.

(** A cart item as the resolvers read it: [id], [quantity], [user { id }]
    and the id of the item it is for. *)
Record CartItem := mkCartItem {
  cartItem_id : string;
  cartItem_quantity : Z;
  cartItem_user : string;
  cartItem_item : string
}.

Record Message := mkMessage { message : string }.

(** ** Errors *)

Inductive Error : Type :=
| JsError (msg : string)      (* [throw new Error(msg)] in a resolver *)
| TypeError (msg : string)    (* raised by the runtime, e.g. a method of [undefined] *)
| PermissionDenied            (* raised by [hasPermission] *)
| Rejected (callee : string). (* a collaborator threw or its promise rejected *)

Inductive Res (A : Type) : Type :=
| Ok (a : A)
| Err (e : Error).
Arguments Ok {A} a.
Arguments Err {A} e.

(** ** The calls a resolver makes *)

(** [where: { id }] and [where: { email }] of [user] and [updateUser]. *)
Inductive UserWhereUniqueInput : Type :=
| ById (id : string)
| ByEmail (email : string).

(** The [data] of [updateUser]: a field that is absent is left alone; a
    field given as [null] is cleared. *)
Record UserUpdateInput := mkUserUpdate {
  data_password : option string;
  data_resetToken : option (option string);
  data_resetTokenExpiry : option (option Z);
  data_permissions_set : option (list string)
}.

Record CookieOptions := mkCookieOptions { httpOnly : bool; maxAge : Z }.

Record Mail := mkMail {
  mail_from : string;
  mail_to : string;
  mail_subject : string;
  mail_html : string
}.

Inductive Op : Type :=
| db_mutation_createItem (data : Obj)
| db_mutation_updateItem (data : Obj) (where_id : Val)
| db_query_item (where_id : Val)
| db_mutation_deleteItem (where_id : Val)
| db_mutation_createUser (data : Obj)
| db_query_user (where_ : UserWhereUniqueInput)
| db_query_users (resetToken : string) (resetTokenExpiry_gte : Z)
| db_mutation_updateUser (where_ : UserWhereUniqueInput) (data : UserUpdateInput)
| db_query_cartItems (user_id item_id : string)
| db_query_cartItem (where_id : string)
| db_mutation_updateCartItem (where_id : string) (quantity : Z)
| db_mutation_createCartItem (user_connect_id item_connect_id : string)
| db_mutation_deleteCartItem (where_id : string)
| bcrypt_hash (s : Val) (salt : Z)
| bcrypt_compare (s hash : string)
| jwt_sign (userId : string) (secret : option string)
| response_cookie (name value : string) (options : CookieOptions)
| response_clearCookie (name : string)
| randomBytes (size : nat)
| Date_now
| transport_sendMail (m : Mail).

(** What each call gives back when it does not fail. *)
Definition Resp (o : Op) : Type :=
  match o with
  | db_mutation_createItem _ => Obj
  | db_mutation_updateItem _ _ => Obj
  | db_query_item _ => option Obj
  | db_mutation_deleteItem _ => Obj
  | db_mutation_createUser _ => User
  | db_query_user _ => option User
  | db_query_users _ _ => list User
  | db_mutation_updateUser _ _ => User
  | db_query_cartItems _ _ => list CartItem
  | db_query_cartItem _ => option CartItem
  | db_mutation_updateCartItem _ _ => CartItem
  | db_mutation_createCartItem _ _ => CartItem
  | db_mutation_deleteCartItem _ => CartItem
  | bcrypt_hash _ _ => string
  | bcrypt_compare _ _ => bool
  | jwt_sign _ _ => string
  | response_cookie _ _ _ => unit
  | response_clearCookie _ => unit
  | randomBytes _ => list byte
  | Date_now => Z
  | transport_sendMail _ => unit
  end.

(** ** Resolver programs

    A resolver returns, throws, or makes a call and goes on with its answer.
    There is no [try] in the file, so a call that fails ends the resolver
    with that failure. *)

Inductive Prog (A : Type) : Type :=
| Ret (a : A)
| Throw (e : Error)
| Call (o : Op) (k : Resp o -> Prog A).
Arguments Ret {A} a.
Arguments Throw {A} e.
Arguments Call {A} o k.

Fixpoint bind {A B} (p : Prog A) (f : A -> Prog B) : Prog B :=
  match p with
  | Ret a => f a
  | Throw e => Throw e
  | Call o k => Call o (fun r => bind (k r) f)
  end.

Definition call (o : Op) : Prog (Resp o) := Call o Ret.

Declare Scope prog_scope.
Delimit Scope prog_scope with prog.
Notation "x <- p ;; q" := (bind p (fun x => q))
  (at level 100, p at next level, right associativity) : prog_scope.
Notation "p ;;; q" := (bind p (fun _ => q))
  (at level 100, right associativity) : prog_scope.
Open Scope prog_scope.

(** ** Running a program against its collaborators *)

Record Run (A S : Type) := mkRun {
  result : Res A;      (* what the resolver returned or threw *)
  final : S;           (* the collaborators' state afterwards *)
  calls : list Op      (* the calls made, in order *)
}.
Arguments mkRun {A S} result final calls.
Arguments result {A S} r.
Arguments final {A S} r.
Arguments calls {A S} r.

Section Run.
Context {S : Type}.
Variable handle : forall o : Op, S -> Res (Resp o) * S.

Fixpoint run {A} (p : Prog A) (s : S) : Run A S :=
  match p with
  | Ret a => mkRun (Ok a) s []
  | Throw e => mkRun (Err e) s []
  | Call o k =>
      match handle o s with
      | (Ok r, s') => let t := run (k r) s' in mkRun (result t) (final t) (o :: calls t)
      | (Err e, s') => mkRun (Err e) s' [o]
      end
  end.

End Run.

(** ** The resolvers *)

(** The part of the request context the resolvers read; [ctx.db] and
    [ctx.response] are reached through the calls above. *)
Record Ctx := mkCtx { request_userId : option string }.

(** [process.env] *)
Record ProcessEnv := mkProcessEnv {
  APP_SECRET : option string;
  FRONTEND_URL : option string
}.

(** A value of [process.env] inside a template literal. *)
Definition interpolate (v : option string) : string := default "undefined"%string v.

Record SigninArgs := mkSigninArgs { signin_email : string; signin_password : string }.
Record RequestResetArgs := mkRequestResetArgs { requestReset_email : string }.
Record ResetPasswordArgs := mkResetPasswordArgs {
  args_resetToken : string;
  args_password : string;
  args_confirmPassword : string
}.
Record UpdatePermissionsArgs := mkUpdatePermissionsArgs {
  args_permissions : list string;
  args_userId : string
}.
Record CartArgs := mkCartArgs { args_id : string }.

Definition LF : string := String (ascii_of_nat 10) EmptyString.
Definition TAB : string := String (ascii_of_nat 9) EmptyString.
Definition DQUOTE : string := String (ascii_of_nat 34) EmptyString.

(** Modelled from the spec: [hasPermission] of ../utils, whose source is not
    part of this development. Section 4.1 has it as the conjunctive check:
    the caller must hold every label asked for, and it fails with
    PermissionDenied otherwise. A caller with no user record holds none. *)
Definition hasPermission (user : option User) (permissionsNeeded : list string) : Prog unit :=
  let held := from_option user_permissions [] user in
  if forallb (fun p => bool_decide (p ∈ held)) permissionsNeeded
  then Ret tt
  else Throw PermissionDenied.

Module Mutations.
Section Resolvers.
Variable process_env : ProcessEnv.
(** [makeANiceEmail] of ../mail wraps the text of a mail in markup. *)
Variable makeANiceEmail : string -> string.

(** The session cookie of [signup], [signin] and [resetPassword]. *)
Definition year_cookie : CookieOptions :=
  {| httpOnly := true; maxAge := 1000 * 60 * 60 * 24 * 365 |}.

Definition createItem (args : Obj) (ctx : Ctx) : Prog Obj :=
  match request_userId ctx with
  | Some userId =>
      if negb (truthy (Some userId))
      then Throw (JsError "You must be logged in to post an item!")
      else
        item <- call (db_mutation_createItem
                  (args ∪ {[ "user" := VObj {[ "connect" := VObj {[ "id" := VStr userId ]} ]} ]})) ;;
        Ret item
  | None => Throw (JsError "You must be logged in to post an item!")
  end.

Definition updateItem (args : Obj) (ctx : Ctx) : Prog Obj :=
  (* first take a copy of the updates *)
  let updates := args in
  (* remove the ID from the updates *)
  let updates := delete "id" updates in
  (* run the update method *)
  call (db_mutation_updateItem updates (get args "id")).

Definition deleteItem (args : Obj) (ctx : Ctx) : Prog Obj :=
  let where_id := get args "id" in
  (* 1. find the item *)
  item <- call (db_query_item where_id) ;;
  (* 2. check if they own that item, or have the permissions: TODO *)
  (* 3. Delete it! *)
  call (db_mutation_deleteItem where_id).

Definition signup (args : Obj) (ctx : Ctx) : Prog User :=
  match get args "email" with
  | VStr email =>
      (* lowercase their email: the result of the call is dropped *)
      let _ := toLowerCase email in
      (* hash their password *)
      password <- call (bcrypt_hash (get args "password") 10) ;;
      (* create the user in the database *)
      user <- call (db_mutation_createUser
                (<["permissions" := VObj {[ "set" := VArr [VStr "USER"] ]}]>
                   (<["password" := VStr password]> args))) ;;
      (* create the JWT token for them *)
      token <- call (jwt_sign (user_id user) (APP_SECRET process_env)) ;;
      (* We set the jwt as a cookie on the response *)
      call (response_cookie "token" token year_cookie) ;;;
      Ret user
  | _ => Throw (TypeError "args.email.toLowerCase")
  end.

Definition signin (args : SigninArgs) (ctx : Ctx) : Prog User :=
  let email := signin_email args in
  let password := signin_password args in
  (* 1. check if there is a user with that email *)
  user <- call (db_query_user (ByEmail email)) ;;
  match user with
  | None => Throw (JsError ("No such user found for email " ++ email))
  | Some user =>
      (* 2. check if their password is correct *)
      valid <- call (bcrypt_compare password (user_password user)) ;;
      if negb valid
      then Throw (JsError "Invalid Password!")
      else
        (* 3. generate the JWT token *)
        token <- call (jwt_sign (user_id user) (APP_SECRET process_env)) ;;
        (* 4. set the cookie with the token *)
        call (response_cookie "token" token year_cookie) ;;;
        (* 5. return the user *)
        Ret user
  end.

Definition signout (ctx : Ctx) : Prog Message :=
  call (response_clearCookie "token") ;;;
  Ret {| message := "Goodbye!" |}.

Definition requestReset (args : RequestResetArgs) (ctx : Ctx) : Prog Message :=
  (* 1. Check if this is a real user *)
  user <- call (db_query_user (ByEmail (requestReset_email args))) ;;
  match user with
  | None => Throw (JsError ("No such user found for email " ++ requestReset_email args))
  | Some user =>
      (* 2. Set a reset token and expiry on that user *)
      buf <- call (randomBytes 20) ;;
      let resetToken := toString_hex buf in
      now <- call Date_now ;;
      let resetTokenExpiry := now + 3600000 in
      res <- call (db_mutation_updateUser (ByEmail (requestReset_email args))
               {| data_password := None;
                  data_resetToken := Some (Some resetToken);
                  data_resetTokenExpiry := Some (Some resetTokenExpiry);
                  data_permissions_set := None |}) ;;
      (* 3. Email them that reset token *)
      mailRes <- call (transport_sendMail
               {| mail_from := "jose@gmail.com";
                  mail_to := user_email user;
                  mail_subject := "Your Password Reset";
                  mail_html := makeANiceEmail
                    ("Your Password Reset Token is here! " ++ LF ++ LF ++ " " ++ LF
                     ++ TAB ++ TAB ++ TAB ++ TAB ++ "<a href=" ++ DQUOTE
                     ++ interpolate (FRONTEND_URL process_env)
                     ++ "/reset?resetToken=" ++ resetToken ++ DQUOTE
                     ++ ">Click Here to Reset</a>" ++ LF
                     ++ TAB ++ TAB ++ TAB ++ TAB) |}) ;;
      (* 4. Return the message *)
      Ret {| message := "Thank you!" |}
  end.

Definition resetPassword (args : ResetPasswordArgs) (ctx : Ctx) : Prog User :=
  (* 1. check if the passwords match *)
  if negb (bool_decide (args_password args = args_confirmPassword args))
  then Throw (JsError "Your passwords don't match")
  else
    (* 2. check if its a legit reset token; 3. check if its expired *)
    now <- call Date_now ;;
    found <- call (db_query_users (args_resetToken args) (now - 3600000)) ;;
    match found with
    | [] => Throw (JsError "This token is either invalid or expired!")
    | user :: _ =>
        (* 4. hash their new password *)
        password <- call (bcrypt_hash (VStr (args_password args)) 10) ;;
        (* 5. save the new password to the user and remove old reset fields *)
        updatedUser <- call (db_mutation_updateUser (ByEmail (user_email user))
                 {| data_password := Some password;
                    data_resetToken := Some None;
                    data_resetTokenExpiry := Some None;
                    data_permissions_set := None |}) ;;
        (* 6. generate JWT *)
        token <- call (jwt_sign (user_id updatedUser) (APP_SECRET process_env)) ;;
        (* 7. set the JWT cookie *)
        call (response_cookie "token" token year_cookie) ;;;
        (* 8. return the new user *)
        Ret updatedUser
    end.

Definition updatePermissions (args : UpdatePermissionsArgs) (ctx : Ctx) : Prog User :=
  (* 1. Check if they are logged in *)
  match request_userId ctx with
  | Some userId =>
      if negb (truthy (Some userId))
      then Throw (JsError "You must be logged in!")
      else
        (* 2. Query the current user *)
        currentUser <- call (db_query_user (ById userId)) ;;
        (* 3. Check if they have permissions to do this *)
        hasPermission currentUser ["ADMIN"; "PERMISSIONUPDATE"]%string ;;;
        (* 4. Update the permissions *)
        call (db_mutation_updateUser (ById (args_userId args))
                {| data_password := None;
                   data_resetToken := None;
                   data_resetTokenExpiry := None;
                   data_permissions_set := Some (args_permissions args) |})
  | None => Throw (JsError "You must be logged in!")
  end.

Definition addToCart (args : CartArgs) (ctx : Ctx) : Prog CartItem :=
  (* 1. Make sure they are signed in *)
  match request_userId ctx with
  | Some userId =>
      if negb (truthy (Some userId))
      then Throw (JsError "You must be signed in to add items!")
      else
        (* 2. Query the users current cart *)
        found <- call (db_query_cartItems userId (args_id args)) ;;
        match found with
        | existingCartItem :: _ =>
            (* 3. that item is already in their cart: increment by 1 *)
            call (db_mutation_updateCartItem (cartItem_id existingCartItem)
                    (cartItem_quantity existingCartItem + 1))
        | [] =>
            (* 4. If it is not in the cart, add a new item *)
            call (db_mutation_createCartItem userId (args_id args))
        end
  | None => Throw (JsError "You must be signed in to add items!")
  end.

Definition removeFromCart (args : CartArgs) (ctx : Ctx) : Prog CartItem :=
  (* 1. Find the cart Item *)
  cartItem <- call (db_query_cartItem (args_id args)) ;;
  match cartItem with
  (* 2. Make sure we found an item *)
  | None => Throw (JsError "No Cart Item Found!")
  | Some cartItem =>
      (* 3. Make sure they own that cart item *)
      if negb (bool_decide (Some (cartItem_user cartItem) = request_userId ctx))
      then Throw (JsError "Cheating :)")
      else
        (* 4. Delete that cart Item *)
        call (db_mutation_deleteCartItem (args_id args))
  end.

End Resolvers.
End Mutations.

(** ** An in-memory model of the collaborators

    The database keeps its rows in insertion order; a query for one row
    gives the first that matches, a query for many gives all that match, in
    order. [update] and [delete] fail when no row matches, and [create] gives
    the new row an id that no row of its table has. *)

Record Store := mkStore {
  users : list User;
  items : gmap string Obj;
  cartItems : list CartItem
}.

(** What a resolver did to [ctx.response]. *)
Inductive ResponseEffect : Type :=
| SetCookie (name value : string) (options : CookieOptions)
| ClearCookie (name : string).

Record World := mkWorld {
  db : Store;
  response : list ResponseEffect;
  outbox : list Mail
}.

(** What the model does not fix: the clock, the random source, the two
    libraries ([None] when they throw), whether the mail transport accepts a
    mail, and the datamodel's default for [CartItem.quantity]. *)
Record Env := mkEnv {
  env_now : Z;
  env_randomBytes : nat -> option (list byte);
  env_bcrypt_hash : Val -> Z -> option string;
  env_bcrypt_compare : string -> string -> option bool;
  env_jwt_sign : string -> option string -> option string;
  env_sendMail : Mail -> bool;
  env_quantity_default : Z
}.

Definition with_db (w : World) (d : Store) : World :=
  {| db := d; response := response w; outbox := outbox w |}.

Definition with_users (d : Store) (us : list User) : Store :=
  {| users := us; items := items d; cartItems := cartItems d |}.

Definition with_items (d : Store) (its : gmap string Obj) : Store :=
  {| users := users d; items := its; cartItems := cartItems d |}.

Definition with_cartItems (d : Store) (cs : list CartItem) : Store :=
  {| users := users d; items := items d; cartItems := cs |}.

(** The first row that satisfies [p], changed by [f]: the new row and the
    new table. *)
Fixpoint update_first {A} (p : A -> bool) (f : A -> A) (l : list A) : option (A * list A) :=
  match l with
  | [] => None
  | x :: l' =>
      if p x then Some (f x, f x :: l')
      else match update_first p f l' with
           | Some (y, l'') => Some (y, x :: l'')
           | None => None
           end
  end.

(** The first row that satisfies [p], taken out: the row and the rest. *)
Fixpoint remove_first {A} (p : A -> bool) (l : list A) : option (A * list A) :=
  match l with
  | [] => None
  | x :: l' =>
      if p x then Some (x, l')
      else match remove_first p l' with
           | Some (y, l'') => Some (y, x :: l'')
           | None => None
           end
  end.

Definition user_matches (wh : UserWhereUniqueInput) (u : User) : bool :=
  match wh with
  | ById i => bool_decide (user_id u = i)
  | ByEmail e => bool_decide (user_email u = e)
  end.

(** [where: { resetToken, resetTokenExpiry_gte }]: a row whose field is
    [null] matches neither condition. *)
Definition reset_matches (resetToken : string) (resetTokenExpiry_gte : Z) (u : User) : bool :=
  bool_decide (user_resetToken u = Some resetToken)
  && match user_resetTokenExpiry u with
     | Some e => resetTokenExpiry_gte <=? e
     | None => false
     end.

Definition apply_user_update (d : UserUpdateInput) (u : User) : User :=
  {| user_id := user_id u;
     user_name := user_name u;
     user_email := user_email u;
     user_password := default (user_password u) (data_password d);
     user_resetToken := default (user_resetToken u) (data_resetToken d);
     user_resetTokenExpiry := default (user_resetTokenExpiry u) (data_resetTokenExpiry d);
     user_permissions := default (user_permissions u) (data_permissions_set d) |}.

Definition cart_matches (user_id item_id : string) (c : CartItem) : bool :=
  bool_decide (cartItem_user c = user_id) && bool_decide (cartItem_item c = item_id).

Definition cart_has_id (i : string) (c : CartItem) : bool :=
  bool_decide (cartItem_id c = i).

Definition set_quantity (q : Z) (c : CartItem) : CartItem :=
  {| cartItem_id := cartItem_id c;
     cartItem_quantity := q;
     cartItem_user := cartItem_user c;
     cartItem_item := cartItem_item c |}.

Definition user_exists (d : Store) (i : string) : bool :=
  bool_decide (i ∈ user_id <$> users d).

Definition item_exists (d : Store) (i : string) : bool :=
  bool_decide (is_Some (items d !! i)).

Definition as_string (v : Val) : option string :=
  match v with VStr s => Some s | _ => None end.

(** [{ connect: { id } }] *)
Definition connect_id (v : Val) : option string :=
  match v with
  | VObj o =>
      match o !! "connect" with
      | Some (VObj c) => c !! "id" ≫= as_string
      | _ => None
      end
  | _ => None
  end.

(** [{ set: [label, ...] }] *)
Definition set_labels (v : Val) : option (list string) :=
  match v with
  | VObj o =>
      match o !! "set" with
      | Some (VArr l) => mapM as_string l
      | _ => None
      end
  | _ => None
  end.

(** The [data] of [createUser] as a row with the id [i]. *)
Definition user_of_data (i : string) (data : Obj) : option User :=
  name ← data !! "name" ≫= as_string;
  email ← data !! "email" ≫= as_string;
  password ← data !! "password" ≫= as_string;
  permissions ← data !! "permissions" ≫= set_labels;
  Some {| user_id := i;
          user_name := name;
          user_email := email;
          user_password := password;
          user_resetToken := None;
          user_resetTokenExpiry := None;
          user_permissions := permissions |}.

Definition reject {A} (callee : string) (w : World) : Res A * World :=
  (Err (Rejected callee), w).

Definition handle (env : Env) (o : Op) (w : World) : Res (Resp o) * World :=
  let d := db w in
  match o return Res (Resp o) * World with
  | db_mutation_createItem data =>
      match data !! "user" ≫= connect_id with
      | Some owner =>
          if user_exists d owner then
            let i := fresh (dom (items d)) in
            let row := <["id" := VStr i]> data in
            (Ok row, with_db w (with_items d (<[i := row]> (items d))))
          else reject "db.mutation.createItem" w
      | None => reject "db.mutation.createItem" w
      end
  | db_mutation_updateItem data where_id =>
      match as_string where_id ≫= λ i, (λ row, (i, row)) <$> items d !! i with
      | Some (i, row) =>
          let row' := data ∪ row in
          (Ok row', with_db w (with_items d (<[i := row']> (items d))))
      | None => reject "db.mutation.updateItem" w
      end
  | db_query_item where_id =>
      match as_string where_id with
      | Some i => (Ok (items d !! i), w)
      | None => reject "db.query.item" w
      end
  | db_mutation_deleteItem where_id =>
      match as_string where_id ≫= λ i, (λ row, (i, row)) <$> items d !! i with
      | Some (i, row) => (Ok row, with_db w (with_items d (delete i (items d))))
      | None => reject "db.mutation.deleteItem" w
      end
  | db_mutation_createUser data =>
      match user_of_data (fresh (user_id <$> users d)) data with
      | Some u =>
          if bool_decide (user_email u ∈ user_email <$> users d)
          then reject "db.mutation.createUser" w
          else (Ok u, with_db w (with_users d (users d ++ [u])))
      | None => reject "db.mutation.createUser" w
      end
  | db_query_user wh => (Ok (find (user_matches wh) (users d)), w)
  | db_query_users tok bound => (Ok (filter (λ u, reset_matches tok bound u = true) (users d)), w)
  | db_mutation_updateUser wh data =>
      match update_first (user_matches wh) (apply_user_update data) (users d) with
      | Some (u, us) => (Ok u, with_db w (with_users d us))
      | None => reject "db.mutation.updateUser" w
      end
  | db_query_cartItems uid iid =>
      (Ok (filter (λ c, cart_matches uid iid c = true) (cartItems d)), w)
  | db_query_cartItem i => (Ok (find (cart_has_id i) (cartItems d)), w)
  | db_mutation_updateCartItem i q =>
      match update_first (cart_has_id i) (set_quantity q) (cartItems d) with
      | Some (c, cs) => (Ok c, with_db w (with_cartItems d cs))
      | None => reject "db.mutation.updateCartItem" w
      end
  | db_mutation_createCartItem uid iid =>
      if user_exists d uid && item_exists d iid then
        let c := {| cartItem_id := fresh (cartItem_id <$> cartItems d);
                    cartItem_quantity := env_quantity_default env;
                    cartItem_user := uid;
                    cartItem_item := iid |} in
        (Ok c, with_db w (with_cartItems d (cartItems d ++ [c])))
      else reject "db.mutation.createCartItem" w
  | db_mutation_deleteCartItem i =>
      match remove_first (cart_has_id i) (cartItems d) with
      | Some (c, cs) => (Ok c, with_db w (with_cartItems d cs))
      | None => reject "db.mutation.deleteCartItem" w
      end
  | bcrypt_hash s salt =>
      match env_bcrypt_hash env s salt with
      | Some h => (Ok h, w)
      | None => reject "bcrypt.hash" w
      end
  | bcrypt_compare s h =>
      match env_bcrypt_compare env s h with
      | Some b => (Ok b, w)
      | None => reject "bcrypt.compare" w
      end
  | jwt_sign userId secret =>
      match env_jwt_sign env userId secret with
      | Some t => (Ok t, w)
      | None => reject "jwt.sign" w
      end
  | response_cookie name value options =>
      (Ok tt, {| db := d; response := response w ++ [SetCookie name value options];
                 outbox := outbox w |})
  | response_clearCookie name =>
      (Ok tt, {| db := d; response := response w ++ [ClearCookie name];
                 outbox := outbox w |})
  | randomBytes size =>
      match env_randomBytes env size with
      | Some buf => (Ok buf, w)
      | None => reject "crypto.randomBytes" w
      end
  | Date_now => (Ok (env_now env), w)
  | transport_sendMail m =>
      if env_sendMail env m
      then (Ok tt, {| db := d; response := response w; outbox := outbox w ++ [m] |})
      else reject "transport.sendMail" w
  end.

(** A resolver run in the model. *)
Definition exec {A} (env : Env) (p : Prog A) (w : World) : Run A World :=
  run (handle env) p w.

(** ** Predicates of the statements *)

(** The user record [user] is there and carries the label [p]. *)
Definition holds (user : option User) (p : string) : Prop :=
  exists u, user = Some u /\ p ∈ user_permissions u.

(** The row [u] carries [resetToken], and its stored expiry is no earlier
    than one hour before [now]. *)
Definition token_accepted (resetToken : string) (now : Z) (u : User) : Prop :=
  user_resetToken u = Some resetToken
  /\ exists e, user_resetTokenExpiry u = Some e /\ now - 3600000 <= e.

(** ** Sample data *)

Definition alice : User :=
  {| user_id := "u1"; user_name := "Alice"; user_email := "Alice@Example.com";
     user_password := "$2a$10$wonderland";
     user_resetToken := None; user_resetTokenExpiry := None;
     user_permissions := ["USER"]%string |}.

Definition bob : User :=
  {| user_id := "u2"; user_name := "Bob"; user_email := "bob@example.com";
     user_password := "$2a$10$builder";
     user_resetToken := None; user_resetTokenExpiry := None;
     user_permissions := ["USER"; "ADMIN"; "PERMISSIONUPDATE"]%string |}.

(** Carol is an admin without PERMISSIONUPDATE; her reset token was to
    expire at 5000000. *)
Definition carol : User :=
  {| user_id := "u3"; user_name := "Carol"; user_email := "carol@example.com";
     user_password := "$2a$10$singer";
     user_resetToken := Some "c0ffee"%string; user_resetTokenExpiry := Some 5000000;
     user_permissions := ["USER"; "ADMIN"]%string |}.

Definition shoes : Obj :=
  {[ "id" := VStr "i1"; "title" := VStr "Shoes"; "price" := VNum 100 ]}.

Definition bobs_cart_item : CartItem :=
  {| cartItem_id := "c1"; cartItem_quantity := 3; cartItem_user := "u2";
     cartItem_item := "i1" |}.

Definition shop : World :=
  {| db := {| users := [alice; bob; carol];
              items := {[ "i1"%string := shoes ]};
              cartItems := [bobs_cart_item] |};
     response := [];
     outbox := [] |}.

(** A clock at 6800000 ms, half an hour after Carol's token expired. *)
Definition sample_env : Env :=
  {| env_now := 6800000;
     env_randomBytes := fun n => Some (replicate n x2a%byte);
     env_bcrypt_hash := fun v _ =>
       match v with VStr s => Some ("$2a$10$" ++ s)%string | _ => None end;
     env_bcrypt_compare := fun s h => Some (bool_decide (("$2a$10$" ++ s)%string = h));
     env_jwt_sign := fun userId secret =>
       match secret with Some _ => Some ("jwt." ++ userId)%string | None => None end;
     env_sendMail := fun _ => true;
     env_quantity_default := 1 |}.

(** The same a minute later. *)
Definition sample_env_later : Env :=
  {| env_now := 6860000;
     env_randomBytes := env_randomBytes sample_env;
     env_bcrypt_hash := env_bcrypt_hash sample_env;
     env_bcrypt_compare := env_bcrypt_compare sample_env;
     env_jwt_sign := env_jwt_sign sample_env;
     env_sendMail := env_sendMail sample_env;
     env_quantity_default := env_quantity_default sample_env |}.

Definition sample_process_env : ProcessEnv :=
  {| APP_SECRET := Some "s3cret"%string;
     FRONTEND_URL := Some "http://localhost:7777"%string |}.

(** The arguments of a signup whose email has capitals. *)
Definition dave_signup : Obj :=
  {[ "email" := VStr "Dave@Example.COM"; "password" := VStr "hunter2";
     "name" := VStr "Dave" ]}.

Definition anonymous : Ctx := {| request_userId := None |}.
Definition as_alice : Ctx := {| request_userId := Some "u1"%string |}.
Definition as_bob : Ctx := {| request_userId := Some "u2"%string |}.
Definition as_carol : Ctx := {| request_userId := Some "u3"%string |}.

(** The sample environment with a mail transport that refuses every mail. *)
Definition sample_env_no_mail : Env :=
  {| env_now := env_now sample_env;
     env_randomBytes := env_randomBytes sample_env;
     env_bcrypt_hash := env_bcrypt_hash sample_env;
     env_bcrypt_compare := env_bcrypt_compare sample_env;
     env_jwt_sign := env_jwt_sign sample_env;
     env_sendMail := fun _ => false;
     env_quantity_default := env_quantity_default sample_env |}.

(** The sample environment two hours and a second later. *)
Definition sample_env_too_late : Env :=
  {| env_now := 14001000;
     env_randomBytes := env_randomBytes sample_env;
     env_bcrypt_hash := env_bcrypt_hash sample_env;
     env_bcrypt_compare := env_bcrypt_compare sample_env;
     env_jwt_sign := env_jwt_sign sample_env;
     env_sendMail := env_sendMail sample_env;
     env_quantity_default := env_quantity_default sample_env |}.

(** The arguments of a new item that come with a [user] of their own. *)
Definition hat_for_bob : Obj :=
  {[ "title" := VStr "Hat";
     "user" := VObj {[ "connect" := VObj {[ "id" := VStr "u2" ]} ]} ]}.

(** New title and price for the shoes. *)
Definition boots_update : Obj :=
  {[ "id" := VStr "i1"; "title" := VStr "Boots"; "price" := VNum 120 ]}.

(** ** Sequences of calls *)


(** A caller whose [userId] is the empty string. *)
Definition with_empty_id : Ctx := {| request_userId := Some ""%string |}.

(** * Properties *)

Import Mutations.

(** Membership in an explicit list of calls. *)
Ltac in_calls H :=
  apply list_elem_of_In in H; cbn in H; intuition congruence.

(** ** Whatever the collaborators answer *)

Section AnyCollaborators.
Context {S : Type}.
Variable handle : forall o : Op, S -> Res (Resp o) * S.

Lemma get_VStr (o : Obj) (k s : string) : get o k = VStr s <-> o !! k = Some (VStr s).
Proof.
  unfold get. destruct (o !! k) as [v|]; cbn; [| split; discriminate].
  split; congruence.
Qed.

(** C8: [updateItem] looks at no caller identity: for every context it makes
    one call, the update of the item with id [args.id] whose data is [args]
    without its [id] property, and its outcome is that of the call. *)
Theorem updateItem_payload (args : Obj) (ctx : Ctx) (s : S) :
  let data := delete "id" args in
  let o := db_mutation_updateItem data (get args "id") in
  let t := run handle (updateItem args ctx) s in
  calls t = [o]
  /\ result t = (handle o s).1
  /\ final t = (handle o s).2
  /\ data !! "id" = None
  /\ (forall k : string, k <> "id"%string -> data !! k = args !! k)
  /\ (forall ctx' : Ctx, updateItem args ctx' = updateItem args ctx).
Proof.
  cbn zeta. unfold updateItem, call. cbn.
  destruct (handle _ s) as [[r|e] s']; cbn; repeat split.
  all: try apply lookup_delete_eq.
  all: intros k Hk; apply lookup_delete_ne; congruence.
Qed.

(** C9: whatever the lookup of [deleteItem] finds, an item or nothing, the
    delete is the next call, and the resolver ends as the delete does. *)
Theorem deleteItem_lookup_unused (args : Obj) (ctx : Ctx) (s s1 : S) (found : option Obj) :
  let where_id := get args "id" in
  handle (db_query_item where_id) s = (Ok found, s1) ->
  let t := run handle (deleteItem args ctx) s in
  calls t = [db_query_item where_id; db_mutation_deleteItem where_id]
  /\ result t = (handle (db_mutation_deleteItem where_id) s1).1
  /\ final t = (handle (db_mutation_deleteItem where_id) s1).2.
Proof.
  cbn zeta. intros H. unfold deleteItem, call. cbn. rewrite H. cbn.
  destruct (handle _ s1) as [[r|e] s']; cbn; done.
Qed.

(** C2: in every run of [signup], a create of a user is called with [args]
    in which only [password] and [permissions] are replaced: the email is the
    one given, lower-cased only if it already was, the password is the answer
    of [bcrypt.hash(args.password, 10)], the permissions are
    [{ set: ["USER"] }]. The create is the second call whenever the email is
    a string and the hash is answered. *)
Theorem signup_create_payload (penv : ProcessEnv) (args : Obj) (ctx : Ctx) (s : S) :
  let t := run handle (signup penv args ctx) s in
  let hash := bcrypt_hash (get args "password") 10 in
  (forall data : Obj, db_mutation_createUser data ∈ calls t ->
     exists (email h : string) (s1 : S),
       args !! "email" = Some (VStr email)
       /\ handle hash s = (Ok h, s1)
       /\ take 2 (calls t) = [hash; db_mutation_createUser data]
       /\ data !! "email" = Some (VStr email)
       /\ (toLowerCase email <> email -> data !! "email" <> Some (VStr (toLowerCase email)))
       /\ data !! "password" = Some (VStr h)
       /\ data !! "permissions" = Some (VObj {[ "set" := VArr [VStr "USER"] ]})
       /\ (forall k : string,
             k <> "password"%string -> k <> "permissions"%string -> data !! k = args !! k))
  /\ (forall (email h : string) (s1 : S),
        args !! "email" = Some (VStr email) -> handle hash s = (Ok h, s1) ->
        exists data : Obj, calls t !! 1%nat = Some (db_mutation_createUser data)).
Proof.
  cbn zeta. unfold signup.
  destruct (get args "email") as [| | | |email| |] eqn:Hget; cbn -[get];
    try (split; [intros d Hd; in_calls Hd
                | intros ? ? ? He; apply get_VStr in He; congruence]).
  apply get_VStr in Hget.
  destruct (handle (bcrypt_hash _ _) s) as [[h|e] s1] eqn:Hhash; cbn -[get].
  2: { split; [intros d Hd; in_calls Hd | intros ? ? ? _ [=]]. }
  split.
  - intros d Hd. exists email, h, s1.
    assert (Hd' : d = <["permissions" := VObj {[ "set" := VArr [VStr "USER"] ]}]>
                        (<["password" := VStr h]> args)).
    { destruct (handle (db_mutation_createUser _) s1) as [[u|e] s2]; cbn -[get] in Hd.
      2: { in_calls Hd. }
      destruct (handle (jwt_sign _ _) s2) as [[tk|e] s3]; cbn -[get] in Hd.
      2: { in_calls Hd. }
      destruct (handle (response_cookie _ _ _) s3) as [[[]|e] s4]; cbn -[get] in Hd;
        in_calls Hd. }
    subst d. split_and!; try done.
    + destruct (handle (db_mutation_createUser _) s1) as [[u|e] s2]; reflexivity.
    + rewrite !lookup_insert_ne by done. exact Hget.
    + rewrite !lookup_insert_ne by done. rewrite Hget. congruence.
    + rewrite lookup_insert_ne by done. apply lookup_insert_eq.
    + apply lookup_insert_eq.
    + intros k H1 H2. rewrite !lookup_insert_ne by congruence. reflexivity.
  - intros email' h' s1' _ _. eexists.
    destruct (handle (db_mutation_createUser _) s1) as [[u|e] s2]; reflexivity.
Qed.

End AnyCollaborators.

(** The three above at the in-memory collaborators: an anonymous update of
    an item, the delete of an item that is not there, and a signup. *)

Lemma updateItem_payload_witness :
  let args : Obj := {[ "id" := VStr "i1"; "title" := VStr "Boots" ]} in
  calls (exec sample_env (updateItem args anonymous) shop)
  = [db_mutation_updateItem (delete "id" args) (get args "id")].
Proof.
  exact (proj1 (updateItem_payload (handle sample_env)
                  {[ "id" := VStr "i1"; "title" := VStr "Boots" ]} anonymous shop)).
Defined.

Lemma deleteItem_lookup_unused_witness :
  let args : Obj := {[ "id" := VStr "nope" ]} in
  handle sample_env (db_query_item (get args "id")) shop = (Ok None, shop)
  /\ calls (exec sample_env (deleteItem args anonymous) shop)
     = [db_query_item (VStr "nope"); db_mutation_deleteItem (VStr "nope")]
  /\ result (exec sample_env (deleteItem args anonymous) shop)
     = Err (Rejected "db.mutation.deleteItem").
Proof.
  cbn zeta.
  assert (Hlookup : handle sample_env (db_query_item (get {[ "id" := VStr "nope" ]} "id")) shop
                    = (Ok None, shop)) by reflexivity.
  split; [exact Hlookup |].
  destruct (deleteItem_lookup_unused (handle sample_env) {[ "id" := VStr "nope" ]}
              anonymous shop shop None Hlookup) as (Hcalls & Hresult & _).
  split; [exact Hcalls | exact Hresult].
Defined.

Lemma signup_create_payload_witness :
  exists data : Obj,
    calls (exec sample_env (signup sample_process_env dave_signup anonymous) shop) !! 1%nat
    = Some (db_mutation_createUser data)
    /\ data !! "email" = Some (VStr "Dave@Example.COM")
    /\ data !! "email" <> Some (VStr "dave@example.com")
    /\ data !! "password" = Some (VStr "$2a$10$hunter2")
    /\ data !! "permissions" = Some (VObj {[ "set" := VArr [VStr "USER"] ]}).
Proof.
  assert (Hemail0 : dave_signup !! "email" = Some (VStr "Dave@Example.COM")) by reflexivity.
  assert (Hhash0 : handle sample_env (bcrypt_hash (get dave_signup "password") 10) shop
                   = (Ok "$2a$10$hunter2"%string, shop)) by reflexivity.
  destruct (signup_create_payload (handle sample_env) sample_process_env dave_signup
              anonymous shop) as (Hany & Hsome).
  destruct (Hsome _ _ _ Hemail0 Hhash0) as (data & Hcall).
  destruct (Hany data) as (email & h & s1 & Hemail & Hhash & _ & Hdata & Hlower
                           & Hpassword & Hpermissions & _).
  { eapply list_elem_of_lookup_2. exact Hcall. }
  rewrite Hemail0 in Hemail. injection Hemail as <-.
  rewrite Hhash0 in Hhash. injection Hhash as <- _.
  exists data. split_and!; [exact Hcall | exact Hdata | | exact Hpassword | exact Hpermissions].
  apply Hlower. discriminate.
Defined.

(** ** In the model *)

Section Lists.
Context {A : Type}.
Implicit Types (p : A -> bool) (l : list A).

Lemma find_None_Forall p l : find p l = None <-> Forall (fun x => p x = false) l.
Proof.
  induction l as [|x l IH]; cbn.
  - split; [constructor | reflexivity].
  - destruct (p x) eqn:E.
    + split; [discriminate |]. intros H. inversion H; congruence.
    + rewrite IH. split; [by constructor |]. by inversion 1.
Qed.

Lemma find_Some_split p l u :
  find p l = Some u ->
  exists l1 l2, l = l1 ++ u :: l2 /\ Forall (fun x => p x = false) l1 /\ p u = true.
Proof.
  induction l as [|x l IH]; cbn; [discriminate |].
  destruct (p x) eqn:E.
  - intros [= ->]. by exists [], l.
  - intros H. destruct (IH H) as (l1 & l2 & -> & H1 & H2).
    exists (x :: l1), l2. split; [done |]. split; [by constructor | done].
Qed.

Lemma find_app_first p l1 u l2 :
  Forall (fun x => p x = false) l1 -> p u = true -> find p (l1 ++ u :: l2) = Some u.
Proof.
  induction 1 as [|x l1 Hx _ IH]; cbn; intros Hu.
  - by rewrite Hu.
  - rewrite Hx. by apply IH.
Qed.

Lemma update_first_app p (f : A -> A) l1 u l2 :
  Forall (fun x => p x = false) l1 -> p u = true ->
  update_first p f (l1 ++ u :: l2) = Some (f u, l1 ++ f u :: l2).
Proof.
  induction 1 as [|x l1 Hx _ IH]; cbn; intros Hu.
  - by rewrite Hu.
  - rewrite Hx, (IH Hu). reflexivity.
Qed.

Lemma update_first_None p (f : A -> A) l :
  Forall (fun x => p x = false) l -> update_first p f l = None.
Proof.
  induction 1 as [|x l Hx _ IH]; cbn; [reflexivity |]. by rewrite Hx, IH.
Qed.

Lemma remove_first_app p l1 u l2 :
  Forall (fun x => p x = false) l1 -> p u = true ->
  remove_first p (l1 ++ u :: l2) = Some (u, l1 ++ l2).
Proof.
  induction 1 as [|x l1 Hx _ IH]; cbn; intros Hu.
  - by rewrite Hu.
  - rewrite Hx, (IH Hu). reflexivity.
Qed.

Lemma filter_false (P : A -> Prop) `{forall x, Decision (P x)} l :
  Forall (fun x => ~ P x) l -> filter P l = [].
Proof.
  induction 1 as [|x l Hx _ IH]; [reflexivity |].
  rewrite filter_cons. destruct (decide (P x)); [contradiction | exact IH].
Qed.

End Lists.

Lemma holds_dec (user : option User) (p : string) : {holds user p} + {~ holds user p}.
Proof.
  destruct user as [u|].
  - destruct (decide (p ∈ user_permissions u)) as [H|H].
    + left. by exists u.
    + right. intros (u' & [= <-] & H'). contradiction.
  - right. intros (u' & [=] & _).
Qed.

Lemma hasPermission_Ret (user : option User) (needed : list string) :
  (forall p, p ∈ needed -> holds user p) -> hasPermission user needed = Ret tt.
Proof.
  intros H. unfold hasPermission.
  replace (forallb _ needed) with true; [reflexivity |].
  symmetry. apply forallb_forall. intros p Hp%list_elem_of_In.
  apply bool_decide_eq_true. destruct (H p Hp) as (u & -> & Hu). exact Hu.
Qed.

Lemma hasPermission_Throw (user : option User) (needed : list string) (p : string) :
  p ∈ needed -> ~ holds user p -> hasPermission user needed = Throw PermissionDenied.
Proof.
  intros Hp Hn. unfold hasPermission.
  destruct (forallb _ needed) eqn:E; [| reflexivity].
  exfalso. apply Hn. rewrite forallb_forall in E.
  specialize (E p (proj1 (list_elem_of_In _ _) Hp)). apply bool_decide_eq_true in E.
  destruct user as [u|]; [by exists u | by apply not_elem_of_nil in E].
Qed.

Lemma reset_matches_accepted (tok : string) (now : Z) (u : User) :
  reset_matches tok (now - 3600000) u = true <-> token_accepted tok now u.
Proof.
  unfold reset_matches, token_accepted. rewrite andb_true_iff, bool_decide_eq_true.
  destruct (user_resetTokenExpiry u) as [e|].
  - rewrite Z.leb_le. split.
    + intros [H1 H2]. split; [done |]. by exists e.
    + intros [H1 (e' & [= <-] & H2)]. done.
  - split; [intros [_ [=]] | intros [_ (e' & [=] & _)]].
Qed.

Lemma query_users_nil (tok : string) (now : Z) (us : list User) :
  filter (fun u => reset_matches tok (now - 3600000) u = true) us = []
  <-> forall u, u ∈ us -> ~ token_accepted tok now u.
Proof.
  split.
  - intros Hnil u Hu Hacc. apply reset_matches_accepted in Hacc.
    assert (Hin : u ∈ filter (fun u => reset_matches tok (now - 3600000) u = true) us)
      by (apply list_elem_of_filter; done).
    rewrite Hnil in Hin. by apply not_elem_of_nil in Hin.
  - intros H. apply filter_false, Forall_forall. intros u Hu Hm.
    apply (H u Hu). by apply reset_matches_accepted.
Qed.

Lemma query_users_first (tok : string) (now : Z) (l1 l2 : list User) (u : User) :
  (forall x, x ∈ l1 -> ~ token_accepted tok now x) -> token_accepted tok now u ->
  filter (fun u => reset_matches tok (now - 3600000) u = true) (l1 ++ u :: l2)
  = u :: filter (fun u => reset_matches tok (now - 3600000) u = true) l2.
Proof.
  intros H1 Hu. rewrite filter_app, (proj2 (query_users_nil tok now l1) H1).
  rewrite filter_cons_True by (by apply reset_matches_accepted). reflexivity.
Qed.

Lemma length_toString_hex (buf : list byte) :
  String.length (toString_hex buf) = (2 * length buf)%nat.
Proof.
  induction buf as [|b buf IH]; [reflexivity |].
  change (String.length (toString_hex (b :: buf)))
    with (S (S (String.length (toString_hex buf)))).
  rewrite IH. cbn [length]. lia.
Qed.

Lemma find_cart_None (i : string) (cs : list CartItem) :
  (forall c, c ∈ cs -> cartItem_id c <> i) -> find (cart_has_id i) cs = None.
Proof.
  intros H. apply find_None_Forall, Forall_forall. intros c Hc.
  apply bool_decide_eq_false. by apply H.
Qed.

Lemma find_user_None (wh : UserWhereUniqueInput) (us : list User) :
  (forall u, u ∈ us -> user_matches wh u = false) -> find (user_matches wh) us = None.
Proof. intros H. apply find_None_Forall, Forall_forall. exact H. Qed.

Section Model.
Variable env : Env.
Variable penv : ProcessEnv.

(** C6: [removeFromCart] fails with "No Cart Item Found!" when no cart item
    has the id; it fails with "Cheating :)" and leaves the store as it was
    when the first cart item with the id belongs to somebody else; the delete
    is called only for the id asked and only when that cart item is the
    caller's, and then it is called. *)
Theorem removeFromCart_guards (w : World) (args : CartArgs) (ctx : Ctx) :
  let i := args_id args in
  let t := exec env (removeFromCart args ctx) w in
  let found := find (cart_has_id i) (cartItems (db w)) in
  ((forall c : CartItem, c ∈ cartItems (db w) -> cartItem_id c <> i) ->
     result t = Err (JsError "No Cart Item Found!") /\ final t = w)
  /\ (forall c : CartItem,
        found = Some c -> request_userId ctx <> Some (cartItem_user c) ->
        result t = Err (JsError "Cheating :)") /\ final t = w
        /\ find (cart_has_id i) (cartItems (db (final t))) = Some c)
  /\ (forall j : string, db_mutation_deleteCartItem j ∈ calls t ->
        j = i /\ exists c, found = Some c /\ request_userId ctx = Some (cartItem_user c))
  /\ (forall c : CartItem,
        found = Some c -> request_userId ctx = Some (cartItem_user c) ->
        calls t = [db_query_cartItem i; db_mutation_deleteCartItem i]
        /\ result t = Ok c).
Proof.
  cbn zeta. unfold exec, removeFromCart, call. cbn.
  destruct (find _ _) as [c|] eqn:Hfind; cbn.
  - assert (Hsome : ~ forall c0 : CartItem,
               c0 ∈ cartItems (db w) -> cartItem_id c0 <> args_id args).
    { intros H. apply find_cart_None in H. congruence. }
    split; [intros Hno; contradiction |].
    case_bool_decide as Hown; cbn.
    + pose proof (find_Some_split _ _ _ Hfind) as (l1 & l2 & Hl & H1 & H2).
      rewrite Hl, (remove_first_app _ _ _ _ H1 H2). cbn.
      split_and!; try done.
      * intros c' [= <-] Hne. congruence.
      * intros j Hj. split; [in_calls Hj |]. by exists c.
      * by intros c' [= <-] _.
    + split_and!; try done.
      * by intros c' [= <-] _.
      * intros j Hj. in_calls Hj.
      * intros c' [= <-] Heq. congruence.
  - split_and!; try done.
    intros j Hj. in_calls Hj.
Qed.

(** C10: with no caller identity, [removeFromCart] on an existing cart item
    fails with the ownership error "Cheating :)", after the lookup alone. *)
Theorem removeFromCart_anonymous (w : World) (args : CartArgs) (ctx : Ctx) (c : CartItem) :
  request_userId ctx = None ->
  find (cart_has_id (args_id args)) (cartItems (db w)) = Some c ->
  let t := exec env (removeFromCart args ctx) w in
  result t = Err (JsError "Cheating :)")
  /\ final t = w
  /\ calls t = [db_query_cartItem (args_id args)]
  /\ (forall j : string, db_mutation_deleteCartItem j ∉ calls t).
Proof.
  intros Hctx Hfind. cbn zeta. unfold exec, removeFromCart, call. cbn.
  rewrite Hfind, Hctx. cbn. split_and!; try done.
  intros j Hj. in_calls Hj.
Qed.

(** C7: [signin] fails with "No such user found for email ..." when no user
    has the email; with the first user of that email, it fails with
    "Invalid Password!" and sets no cookie when [bcrypt.compare] says no, and
    when it says yes (and the token can be signed) it returns that user and
    sets the httpOnly cookie "token" to the token signed for that user's id. *)
Theorem signin_outcomes (w : World) (args : SigninArgs) (ctx : Ctx) :
  let email := signin_email args in
  let password := signin_password args in
  let t := exec env (signin penv args ctx) w in
  ((forall u : User, u ∈ users (db w) -> user_email u <> email) ->
     result t = Err (JsError ("No such user found for email " ++ email)) /\ final t = w)
  /\ (forall u : User,
        find (user_matches (ByEmail email)) (users (db w)) = Some u ->
        (env_bcrypt_compare env password (user_password u) = Some false ->
           result t = Err (JsError "Invalid Password!") /\ final t = w
           /\ (forall n v o, response_cookie n v o ∉ calls t))
        /\ (forall token : string,
              env_bcrypt_compare env password (user_password u) = Some true ->
              env_jwt_sign env (user_id u) (APP_SECRET penv) = Some token ->
              result t = Ok u
              /\ response (final t)
                 = response w
                   ++ [SetCookie "token" token {| httpOnly := true; maxAge := 31536000000 |}]
              /\ db (final t) = db w)).
Proof.
  cbn zeta. unfold exec, signin, call. cbn. split.
  - intros Hnone. rewrite find_user_None; [done |].
    intros u Hu. cbn. apply bool_decide_eq_false. by apply Hnone.
  - intros u ->. cbn. split.
    + intros ->. cbn. split_and!; try done. intros n v o Hin. in_calls Hin.
    + intros token -> . cbn. intros ->. cbn. done.
Qed.

(** C1: with [ctx.request.userId] set, [updatePermissions] calls the update
    of the target's permissions exactly when the caller's record carries both
    ADMIN and PERMISSIONUPDATE; the target then has [args.permissions]; when
    either label is missing the resolver fails with PermissionDenied after the
    lookup of the caller, and nothing is changed. *)
Theorem updatePermissions_requires_both (w : World) (args : UpdatePermissionsArgs)
    (ctx : Ctx) (userId : string) :
  request_userId ctx = Some userId -> userId <> ""%string ->
  let t := exec env (updatePermissions args ctx) w in
  let caller := find (user_matches (ById userId)) (users (db w)) in
  let data :=
    {| data_password := None; data_resetToken := None; data_resetTokenExpiry := None;
       data_permissions_set := Some (args_permissions args) |} in
  let update := db_mutation_updateUser (ById (args_userId args)) data in
  (holds caller "ADMIN" /\ holds caller "PERMISSIONUPDATE" ->
     calls t = [db_query_user (ById userId); update]
     /\ forall target : User,
          find (user_matches (ById (args_userId args))) (users (db w)) = Some target ->
          result t = Ok (apply_user_update data target)
          /\ user_permissions (apply_user_update data target) = args_permissions args
          /\ find (user_matches (ById (args_userId args))) (users (db (final t)))
             = Some (apply_user_update data target))
  /\ (~ (holds caller "ADMIN" /\ holds caller "PERMISSIONUPDATE") ->
       result t = Err PermissionDenied /\ final t = w
       /\ calls t = [db_query_user (ById userId)])
  /\ ((exists wh d, db_mutation_updateUser wh d ∈ calls t) ->
       holds caller "ADMIN" /\ holds caller "PERMISSIONUPDATE").
Proof.
  intros Hctx Hne. cbn zeta. unfold exec, updatePermissions, call. rewrite Hctx.
  cbn [truthy negb]. rewrite bool_decide_eq_false_2 by done. cbn [negb].
  cbn [bind run handle].
  set (caller := find (user_matches (ById userId)) (users (db w))).
  destruct (holds_dec caller "ADMIN") as [Ha|Ha];
    [destruct (holds_dec caller "PERMISSIONUPDATE") as [Hp|Hp] |].
  - rewrite hasPermission_Ret.
    2: { intros p Hp'. apply list_elem_of_In in Hp'. cbn in Hp'.
         destruct Hp' as [<-|[<-|[]]]; assumption. }
    split_and!; [| tauto | tauto]. intros _. cbn.
    destruct (update_first _ _ _) as [[u' us']|] eqn:Hupd; cbn.
    + split; [done |]. intros target Ht.
      pose proof (find_Some_split _ _ _ Ht) as (l1 & l2 & Hl & H1 & H2).
      rewrite Hl, (update_first_app _ _ _ _ _ H1 H2) in Hupd.
      injection Hupd as <- <-. split_and!; try done.
      apply find_app_first; [done |]. exact H2.
    + split; [done |]. intros target Ht.
      pose proof (find_Some_split _ _ _ Ht) as (l1 & l2 & Hl & H1 & H2).
      rewrite Hl, (update_first_app _ _ _ _ _ H1 H2) in Hupd. discriminate.
  - rewrite (hasPermission_Throw _ _ "PERMISSIONUPDATE") by (done || set_solver).
    cbn. split_and!; [tauto | done |].
    intros (wh & d & Hin). in_calls Hin.
  - rewrite (hasPermission_Throw _ _ "ADMIN") by (done || set_solver).
    cbn. split_and!; [tauto | done |].
    intros (wh & d & Hin). in_calls Hin.
Qed.

(** C3: with equal passwords, [resetPassword] reads the clock and asks for
    the users whose [resetToken] is the one given and whose
    [resetTokenExpiry] is at least the clock minus 3600000; it fails with
    "This token is either invalid or expired!" exactly when no user has the
    token with a stored expiry at or after one hour before now, and otherwise
    goes on with the first such user. *)
Theorem resetPassword_token_window (w : World) (args : ResetPasswordArgs) (ctx : Ctx) :
  args_password args = args_confirmPassword args ->
  let tok := args_resetToken args in
  let now := env_now env in
  let t := exec env (resetPassword penv args ctx) w in
  let invalid : Res User := Err (JsError "This token is either invalid or expired!") in
  take 2 (calls t) = [Date_now; db_query_users tok (now - 3600000)]
  /\ (result t = invalid <-> forall u, u ∈ users (db w) -> ~ token_accepted tok now u)
  /\ (result t = invalid -> final t = w)
  /\ (forall l1 u l2,
        users (db w) = l1 ++ u :: l2 ->
        (forall x, x ∈ l1 -> ~ token_accepted tok now x) -> token_accepted tok now u ->
        calls t !! 2%nat = Some (bcrypt_hash (VStr (args_password args)) 10)
        /\ forall h, env_bcrypt_hash env (VStr (args_password args)) 10 = Some h ->
             calls t !! 3%nat
             = Some (db_mutation_updateUser (ByEmail (user_email u))
                       {| data_password := Some h; data_resetToken := Some None;
                          data_resetTokenExpiry := Some None;
                          data_permissions_set := None |})).
Proof.
  intros Hpw. cbn zeta. unfold exec, resetPassword, call.
  rewrite bool_decide_eq_true_2 by done. cbn [negb]. cbn [bind run handle].
  cbn [result final calls].
  destruct (filter _ (users (db w))) as [|u0 rest] eqn:Hq.
  - cbn. split_and!; try done.
    + split; [intros _ | done]. by apply query_users_nil.
    + intros l1 u l2 Hl H1 Hu. exfalso.
      apply (proj1 (query_users_nil _ _ _) Hq u); [| done]. rewrite Hl. set_solver.
  - assert (Hsome : ~ forall u, u ∈ users (db w) ->
                        ~ token_accepted (args_resetToken args) (env_now env) u).
    { intros H. apply query_users_nil in H. congruence. }
    assert (Hfirst : forall l1 u l2,
        users (db w) = l1 ++ u :: l2 ->
        (forall x, x ∈ l1 -> ~ token_accepted (args_resetToken args) (env_now env) x) ->
        token_accepted (args_resetToken args) (env_now env) u -> u0 = u).
    { intros l1 u l2 Hl H1 Hu.
      rewrite Hl, (query_users_first _ _ _ _ _ H1 Hu) in Hq. congruence. }
    assert (Hgoes : forall r : Res User,
        (exists e, r = Err (Rejected e)) \/ (exists v, r = Ok v) ->
        r = Err (JsError "This token is either invalid or expired!") <->
        forall u, u ∈ users (db w) ->
                  ~ token_accepted (args_resetToken args) (env_now env) u).
    { intros r [[e ->] | [v ->]]; (split; [discriminate | tauto]). }
    cbn [bind run handle].
    destruct (env_bcrypt_hash env _ _) as [h|] eqn:Hh;
      cbn [bind run handle reject result final calls];
      [destruct (update_first _ _ _) as [[u' us']|] eqn:Hupd;
         cbn [bind run handle reject result final calls];
         [destruct (env_jwt_sign env _ _) as [tk|] eqn:Hs |] |].
    all: cbn; split_and!; try done.
    all: try (apply Hgoes; by eauto).
    all: intros l1 u l2 Hl H1 Hu; rewrite <- (Hfirst _ _ _ Hl H1 Hu).
    all: split; [done |]; by intros h' [= <-].
Qed.

(** C5: for a signed-in user who is in the store, an item that is in the
    store and a cart with no row for the two, with a quantity default of 1:
    the first [addToCart] creates a row of quantity 1, the second finds it
    and calls the update with that quantity plus one, and afterwards the
    cart has one row for the pair, of quantity 2. *)
Theorem addToCart_twice (w : World) (args : CartArgs) (ctx : Ctx) (userId : string) :
  request_userId ctx = Some userId -> userId <> ""%string ->
  userId ∈ user_id <$> users (db w) ->
  is_Some (items (db w) !! args_id args) ->
  (forall c, c ∈ cartItems (db w) ->
     ~ (cartItem_user c = userId /\ cartItem_item c = args_id args)) ->
  env_quantity_default env = 1 ->
  let t1 := exec env (addToCart args ctx) w in
  let t2 := exec env (addToCart args ctx) (final t1) in
  exists c : CartItem,
    result t1 = Ok c
    /\ cartItem_quantity c = 1
    /\ cartItems (db (final t1)) = cartItems (db w) ++ [c]
    /\ calls t2 = [db_query_cartItems userId (args_id args);
                   db_mutation_updateCartItem (cartItem_id c) (cartItem_quantity c + 1)]
    /\ result t2 = Ok (set_quantity 2 c)
    /\ cartItems (db (final t2)) = cartItems (db w) ++ [set_quantity 2 c]
    /\ filter (fun x => cartItem_user x = userId /\ cartItem_item x = args_id args)
         (cartItems (db (final t2))) = [set_quantity 2 c].
Proof.
  intros Hctx Hne Huser Hitem Hnone Hdef. cbn zeta.
  set (cs := cartItems (db w)).
  set (c := {| cartItem_id := fresh (cartItem_id <$> cs);
               cartItem_quantity := env_quantity_default env;
               cartItem_user := userId;
               cartItem_item := args_id args |}).
  assert (Hq0 : filter (fun x => cart_matches userId (args_id args) x = true) cs = []).
  { apply filter_false, Forall_forall. intros x Hx Hm. apply (Hnone x Hx).
    unfold cart_matches in Hm. apply andb_true_iff in Hm as [H1 H2].
    by apply bool_decide_eq_true in H1, H2. }
  assert (Hmc : cart_matches userId (args_id args) c = true).
  { unfold cart_matches. cbn. by rewrite !bool_decide_eq_true_2. }
  assert (Hfresh : Forall (fun x => cart_has_id (cartItem_id c) x = false) cs).
  { apply Forall_forall. intros x Hx. unfold cart_has_id. apply bool_decide_eq_false.
    intros Heq. apply (infinite_is_fresh (cartItem_id <$> cs)).
    cbn in Heq. rewrite <- Heq. apply list_elem_of_fmap. by exists x. }
  assert (Hrun1 : exec env (addToCart args ctx) w
                  = mkRun (Ok c) (with_db w (with_cartItems (db w) (cs ++ [c])))
                      [db_query_cartItems userId (args_id args);
                       db_mutation_createCartItem userId (args_id args)]).
  { unfold exec, addToCart, call. rewrite Hctx. cbn [truthy negb].
    rewrite bool_decide_eq_false_2 by done. cbn [negb bind run handle].
    fold cs. rewrite Hq0. cbn [bind run handle].
    unfold user_exists, item_exists. rewrite !bool_decide_eq_true_2 by done.
    reflexivity. }
  assert (Hrun2 : exec env (addToCart args ctx)
                    (with_db w (with_cartItems (db w) (cs ++ [c])))
                  = mkRun (Ok (set_quantity (cartItem_quantity c + 1) c))
                      (with_db w (with_cartItems (db w)
                         (cs ++ [set_quantity (cartItem_quantity c + 1) c])))
                      [db_query_cartItems userId (args_id args);
                       db_mutation_updateCartItem (cartItem_id c)
                         (cartItem_quantity c + 1)]).
  { unfold exec, addToCart, call. rewrite Hctx. cbn [truthy negb].
    rewrite bool_decide_eq_false_2 by done. cbn [negb bind run handle].
    cbn [db with_db cartItems with_cartItems].
    rewrite filter_app, Hq0, filter_cons_True by exact Hmc.
    cbn [app bind run handle]. cbn [db with_db cartItems with_cartItems].
    rewrite (update_first_app _ _ cs c [])
      by (exact Hfresh || (by apply bool_decide_eq_true)).
    reflexivity. }
  exists c. rewrite Hrun1. cbn [result final calls]. rewrite Hrun2.
  cbn [result final calls].
  assert (Hq : cartItem_quantity c + 1 = 2) by (cbn; lia). rewrite Hq.
  split_and!; try done.
  cbn [db with_db cartItems with_cartItems]. rewrite filter_app.
  rewrite filter_false.
  2: { apply Forall_forall. intros x Hx. by apply Hnone. }
  rewrite filter_cons_True by done. reflexivity.
Qed.

End Model.

Section ResetFlow.
Variables env1 env2 : Env.
Variable penv : ProcessEnv.
Variable makeANiceEmail : string -> string.

(** C4: for a user of the store, [requestReset] at time [env_now env1] puts
    on the user's row the hex of the 20 random bytes and the expiry
    [env_now env1 + 3600000]. When no row carried that token before, a
    [resetPassword] with it and twice the same password, at a time no later
    than two hours after the request, succeeds (the hash and the signing
    given): the row has the hash as password and neither token nor expiry. *)
Theorem requestReset_then_resetPassword (w : World) (ctx1 ctx2 : Ctx)
    (email password : string) (u : User) (buf : list byte) (h token : string) :
  find (user_matches (ByEmail email)) (users (db w)) = Some u ->
  env_randomBytes env1 20%nat = Some buf ->
  length buf = 20%nat ->
  (forall x, x ∈ users (db w) -> user_resetToken x <> Some (toString_hex buf)) ->
  env_now env2 <= env_now env1 + 7200000 ->
  env_bcrypt_hash env2 (VStr password) 10 = Some h ->
  env_jwt_sign env2 (user_id u) (APP_SECRET penv) = Some token ->
  let resetToken := toString_hex buf in
  let t1 := exec env1 (requestReset penv makeANiceEmail
                         {| requestReset_email := email |} ctx1) w in
  let t2 := exec env2 (resetPassword penv
                         {| args_resetToken := resetToken; args_password := password;
                            args_confirmPassword := password |} ctx2) (final t1) in
  let issued := apply_user_update
       {| data_password := None; data_resetToken := Some (Some resetToken);
          data_resetTokenExpiry := Some (Some (env_now env1 + 3600000));
          data_permissions_set := None |} u in
  let u' := apply_user_update
       {| data_password := Some h; data_resetToken := Some None;
          data_resetTokenExpiry := Some None; data_permissions_set := None |} issued in
  String.length resetToken = 40%nat
  /\ find (user_matches (ByEmail email)) (users (db (final t1))) = Some issued
  /\ user_resetToken issued = Some resetToken
  /\ user_resetTokenExpiry issued = Some (env_now env1 + 3600000)
  /\ result t2 = Ok u'
  /\ find (user_matches (ByEmail email)) (users (db (final t2))) = Some u'
  /\ user_password u' = h
  /\ user_resetToken u' = None
  /\ user_resetTokenExpiry u' = None.
Proof.
  intros Hfind Hrand Hlen Hfresh Hnow Hhash Hsign. cbn zeta.
  pose proof (find_Some_split _ _ _ Hfind) as (l1 & l2 & Hl & H1 & H2).
  set (tok := toString_hex buf).
  set (issued := apply_user_update _ u).
  set (u' := apply_user_update _ issued).
  assert (Hemail : user_email u = email) by (by apply bool_decide_eq_true in H2).
  (* the request leaves the row of [u] with the token, mail or no mail *)
  set (t1 := exec env1 _ w).
  assert (Hdb1 : users (db (final t1)) = l1 ++ issued :: l2).
  { subst t1. unfold exec, requestReset, call. cbn [bind run handle requestReset_email].
    rewrite Hfind. cbn [bind run handle]. rewrite Hrand. cbn [bind run handle].
    fold tok. rewrite Hl, (update_first_app _ _ _ _ _ H1 H2). cbn [bind run handle].
    fold issued. destruct (env_sendMail env1 _); reflexivity. }
  (* the reset finds that row first *)
  assert (Hacc : token_accepted tok (env_now env2) issued).
  { split; [reflexivity |]. eexists. split; [reflexivity |]. lia. }
  assert (Hl1 : forall x, x ∈ l1 -> ~ token_accepted tok (env_now env2) x).
  { intros x Hx [Htok _]. apply (Hfresh x); [| exact Htok]. rewrite Hl. set_solver. }
  assert (H2' : user_matches (ByEmail (user_email issued)) issued = true)
    by (by apply bool_decide_eq_true).
  assert (H1' : Forall (fun x => user_matches (ByEmail (user_email issued)) x = false) l1)
    by (cbn [user_email issued apply_user_update]; by rewrite Hemail).
  set (t2 := exec env2 _ (final t1)).
  assert (Hrun2 : result t2 = Ok u' /\ users (db (final t2)) = l1 ++ u' :: l2).
  { subst t2. unfold exec, resetPassword, call.
    cbn [args_password args_confirmPassword args_resetToken].
    rewrite bool_decide_eq_true_2 by done. cbn [negb bind run handle].
    rewrite Hdb1, (query_users_first _ _ _ _ _ Hl1 Hacc).
    cbn [bind run handle]. rewrite Hhash. cbn [bind run handle].
    rewrite Hdb1, (update_first_app _ _ _ _ _ H1' H2').
    cbn [bind run handle]. cbn [user_id apply_user_update].
    change (user_id issued) with (user_id u). rewrite Hsign.
    split; reflexivity. }
  destruct Hrun2 as [Hres2 Hdb2].
  split_and!; try reflexivity.
  - unfold tok. rewrite length_toString_hex, Hlen. reflexivity.
  - rewrite Hdb1. apply find_app_first; [exact H1 |]. cbn. by apply bool_decide_eq_true.
  - exact Hres2.
  - rewrite Hdb2. apply find_app_first; [exact H1 |]. cbn. by apply bool_decide_eq_true.
Qed.

End ResetFlow.

(** ** The model theorems at the sample shop *)

(** The rows of an explicit table, one by one. *)
Ltac each_row H :=
  apply list_elem_of_In in H; cbn in H;
  repeat (destruct H as [<- | H]; [| try contradiction]).

(** Alice may not remove Bob's cart item and it stays; Bob may; nobody can
    remove a cart item that is not there. *)
Lemma removeFromCart_guards_witness :
  (let t := exec sample_env (removeFromCart {| args_id := "c1" |} as_alice) shop in
   result t = Err (JsError "Cheating :)") /\ final t = shop
   /\ find (cart_has_id "c1") (cartItems (db (final t))) = Some bobs_cart_item)
  /\ (let t := exec sample_env (removeFromCart {| args_id := "c9" |} as_bob) shop in
      result t = Err (JsError "No Cart Item Found!") /\ final t = shop)
  /\ (let t := exec sample_env (removeFromCart {| args_id := "c1" |} as_bob) shop in
      calls t = [db_query_cartItem "c1"; db_mutation_deleteCartItem "c1"]
      /\ result t = Ok bobs_cart_item).
Proof.
  cbn zeta. split; [| split].
  - destruct (removeFromCart_guards sample_env shop {| args_id := "c1" |} as_alice)
      as (_ & H & _).
    apply (H bobs_cart_item); [reflexivity | discriminate].
  - destruct (removeFromCart_guards sample_env shop {| args_id := "c9" |} as_bob)
      as (H & _).
    apply H. intros c Hc. each_row Hc. discriminate.
  - destruct (removeFromCart_guards sample_env shop {| args_id := "c1" |} as_bob)
      as (_ & _ & _ & H).
    apply (H bobs_cart_item); reflexivity.
Defined.

Lemma removeFromCart_anonymous_witness :
  let t := exec sample_env (removeFromCart {| args_id := "c1" |} anonymous) shop in
  result t = Err (JsError "Cheating :)")
  /\ final t = shop
  /\ calls t = [db_query_cartItem "c1"]
  /\ (forall j : string, db_mutation_deleteCartItem j ∉ calls t).
Proof.
  apply (removeFromCart_anonymous sample_env shop {| args_id := "c1" |} anonymous
           bobs_cart_item); reflexivity.
Defined.

(** Alice signs in with the wrong and with the right password; the email in
    lower case is nobody's. *)
Lemma signin_outcomes_witness :
  (let t := exec sample_env
              (signin sample_process_env
                 {| signin_email := "Alice@Example.com"; signin_password := "queen" |}
                 anonymous) shop in
   result t = Err (JsError "Invalid Password!") /\ final t = shop)
  /\ (let t := exec sample_env
                 (signin sample_process_env
                    {| signin_email := "Alice@Example.com"; signin_password := "wonderland" |}
                    anonymous) shop in
      result t = Ok alice
      /\ response (final t)
         = [SetCookie "token" "jwt.u1" {| httpOnly := true; maxAge := 31536000000 |}])
  /\ (let t := exec sample_env
                 (signin sample_process_env
                    {| signin_email := "alice@example.com"; signin_password := "wonderland" |}
                    anonymous) shop in
      result t = Err (JsError "No such user found for email alice@example.com")).
Proof.
  cbn zeta. split; [| split].
  - destruct (signin_outcomes sample_env sample_process_env shop
                {| signin_email := "Alice@Example.com"; signin_password := "queen" |}
                anonymous) as (_ & H).
    destruct (H alice eq_refl) as ((Hresult & Hfinal & _) & _); [reflexivity |].
    split; [exact Hresult | exact Hfinal].
  - destruct (signin_outcomes sample_env sample_process_env shop
                {| signin_email := "Alice@Example.com"; signin_password := "wonderland" |}
                anonymous) as (_ & H).
    destruct (H alice eq_refl) as (_ & Hyes).
    destruct (Hyes "jwt.u1"%string eq_refl eq_refl) as (Hresult & Hcookie & _).
    split; [exact Hresult | exact Hcookie].
  - destruct (signin_outcomes sample_env sample_process_env shop
                {| signin_email := "alice@example.com"; signin_password := "wonderland" |}
                anonymous) as (H & _).
    apply H. intros u Hu. each_row Hu; discriminate.
Defined.

(** Carol, an admin without PERMISSIONUPDATE, is refused and nothing
    changes; Bob, who has both, makes Alice an admin. *)
Lemma updatePermissions_requires_both_witness :
  (let t := exec sample_env
              (updatePermissions
                 {| args_permissions := ["USER"; "ADMIN"]%string; args_userId := "u1" |}
                 as_carol) shop in
   result t = Err PermissionDenied /\ final t = shop
   /\ calls t = [db_query_user (ById "u3")])
  /\ (let t := exec sample_env
                 (updatePermissions
                    {| args_permissions := ["USER"; "ADMIN"]%string; args_userId := "u1" |}
                    as_bob) shop in
      result t = Ok {| user_id := "u1"; user_name := "Alice";
                       user_email := "Alice@Example.com";
                       user_password := "$2a$10$wonderland";
                       user_resetToken := None; user_resetTokenExpiry := None;
                       user_permissions := ["USER"; "ADMIN"]%string |}).
Proof.
  cbn zeta. split.
  - destruct (updatePermissions_requires_both sample_env shop
                {| args_permissions := ["USER"; "ADMIN"]%string; args_userId := "u1" |}
                as_carol "u3" eq_refl) as (_ & H & _); [discriminate |].
    apply H. intros [_ (u & Hu & Hin)]. cbn in Hu. injection Hu as <-.
    apply list_elem_of_In in Hin. cbn in Hin. intuition discriminate.
  - destruct (updatePermissions_requires_both sample_env shop
                {| args_permissions := ["USER"; "ADMIN"]%string; args_userId := "u1" |}
                as_bob "u2" eq_refl) as (H & _); [discriminate |].
    destruct H as (_ & H).
    + split; exists bob; (split; [reflexivity |]);
        apply list_elem_of_In; cbn; tauto.
    + destruct (H alice eq_refl) as (Hresult & _). exact Hresult.
Defined.

(** At 6800000 Carol's token, whose stored expiry 5000000 has passed, still
    resets her password: the window is the hour before the attempt. *)
Lemma resetPassword_token_window_witness :
  let args := {| args_resetToken := "c0ffee"; args_password := "aria";
                 args_confirmPassword := "aria" |} in
  let t := exec sample_env (resetPassword sample_process_env args anonymous) shop in
  5000000 < env_now sample_env
  /\ take 2 (calls t) = [Date_now; db_query_users "c0ffee" 3200000]
  /\ result t <> Err (JsError "This token is either invalid or expired!")
  /\ calls t !! 3%nat
     = Some (db_mutation_updateUser (ByEmail "carol@example.com")
               {| data_password := Some "$2a$10$aria"%string; data_resetToken := Some None;
                  data_resetTokenExpiry := Some None; data_permissions_set := None |}).
Proof.
  cbn zeta.
  assert (Hcarol : token_accepted "c0ffee" (env_now sample_env) carol).
  { split; [reflexivity |]. exists 5000000. split; [reflexivity |]. cbn. lia. }
  destruct (resetPassword_token_window sample_env sample_process_env shop
              {| args_resetToken := "c0ffee"; args_password := "aria";
                 args_confirmPassword := "aria" |} anonymous eq_refl)
    as (Hcalls & Hiff & _ & Hfirst).
  split; [cbn; lia |]. split; [exact Hcalls |]. split.
  - intros Hinvalid. apply (proj1 Hiff Hinvalid carol); [| exact Hcarol].
    apply list_elem_of_In. cbn. tauto.
  - destruct (Hfirst [alice; bob] carol [] eq_refl) as (_ & Hupdate).
    + intros x Hx [Htok _]. each_row Hx; discriminate.
    + exact Hcarol.
    + exact (Hupdate "$2a$10$aria"%string eq_refl).
Defined.

(** Alice asks for a reset and uses the token a minute later. *)
Lemma requestReset_then_resetPassword_witness :
  let t1 := exec sample_env
              (requestReset sample_process_env (fun text => text)
                 {| requestReset_email := "Alice@Example.com" |} anonymous) shop in
  let t2 := exec sample_env_later
              (resetPassword sample_process_env
                 {| args_resetToken := toString_hex (replicate 20 x2a%byte);
                    args_password := "rabbit"; args_confirmPassword := "rabbit" |}
                 anonymous) (final t1) in
  String.length (toString_hex (replicate 20 x2a%byte)) = 40%nat
  /\ result t2 = Ok {| user_id := "u1"; user_name := "Alice";
                       user_email := "Alice@Example.com";
                       user_password := "$2a$10$rabbit";
                       user_resetToken := None; user_resetTokenExpiry := None;
                       user_permissions := ["USER"]%string |}.
Proof.
  cbn zeta.
  destruct (requestReset_then_resetPassword sample_env sample_env_later
              sample_process_env (fun text => text) shop anonymous anonymous
              "Alice@Example.com" "rabbit" alice (replicate 20 x2a%byte)
              "$2a$10$rabbit" "jwt.u1")
    as (Hlength & _ & _ & _ & Hresult & _).
  - reflexivity.
  - reflexivity.
  - reflexivity.
  - intros x Hx. each_row Hx; vm_compute; discriminate.
  - cbn. lia.
  - reflexivity.
  - reflexivity.
  - split; [exact Hlength | exact Hresult].
Defined.

(** Alice adds the shoes twice: one row of quantity 2 next to Bob's. *)
Lemma addToCart_twice_witness :
  let t1 := exec sample_env (addToCart {| args_id := "i1" |} as_alice) shop in
  let t2 := exec sample_env (addToCart {| args_id := "i1" |} as_alice) (final t1) in
  exists c : CartItem,
    result t1 = Ok c
    /\ cartItem_quantity c = 1
    /\ result t2 = Ok (set_quantity 2 c)
    /\ cartItems (db (final t2)) = [bobs_cart_item; set_quantity 2 c]
    /\ filter (fun x => cartItem_user x = "u1"%string /\ cartItem_item x = "i1"%string)
         (cartItems (db (final t2))) = [set_quantity 2 c].
Proof.
  cbn zeta.
  destruct (addToCart_twice sample_env shop {| args_id := "i1" |} as_alice "u1")
    as (c & H1 & Hq & _ & _ & H2 & Hcart & Hone).
  - reflexivity.
  - discriminate.
  - apply list_elem_of_In. cbn. tauto.
  - exists shoes. reflexivity.
  - intros c Hc [Huser _]. each_row Hc. discriminate.
  - reflexivity.
  - exists c. split_and!; [exact H1 | exact Hq | exact H2 | exact Hcart | exact Hone].
Defined.

(** * Further properties *)

(** ** Guards and payloads, whatever the collaborators answer *)

Section Guards.
Context {S : Type}.
Variable handle : forall o : Op, S -> Res (Resp o) * S.

(** X1: [createItem], [updatePermissions] and [addToCart] refuse a caller
    whose [userId] is unset or the empty string, each with its own message,
    before any call is made. *)
Theorem login_guards (ctx : Ctx) (s : S) :
  truthy (request_userId ctx) = false ->
  (forall args : Obj,
     run handle (createItem args ctx) s
     = mkRun (Err (JsError "You must be logged in to post an item!")) s [])
  /\ (forall args : UpdatePermissionsArgs,
        run handle (updatePermissions args ctx) s
        = mkRun (Err (JsError "You must be logged in!")) s [])
  /\ (forall args : CartArgs,
        run handle (addToCart args ctx) s
        = mkRun (Err (JsError "You must be signed in to add items!")) s []).
Proof.
  intros Hfalsy. unfold createItem, updatePermissions, addToCart.
  destruct (request_userId ctx) as [userId|]; [rewrite Hfalsy |]; cbn; done.
Qed.

(** X2: a signed-in [createItem] makes one call, the create, with every
    property of [args] as given and the caller connected as [user]; because
    [args] is spread last, a [user] property of [args] replaces the caller. *)
Theorem createItem_payload (args : Obj) (ctx : Ctx) (s : S) (userId : string) :
  request_userId ctx = Some userId -> userId <> ""%string ->
  exists data : Obj,
    calls (run handle (createItem args ctx) s) = [db_mutation_createItem data]
    /\ result (run handle (createItem args ctx) s) = (handle (db_mutation_createItem data) s).1
    /\ (forall (k : string) (v : Val), args !! k = Some v -> data !! k = Some v)
    /\ (forall k : string, k <> "user"%string -> data !! k = args !! k)
    /\ (args !! "user" = None ->
        data !! "user" = Some (VObj {[ "connect" := VObj {[ "id" := VStr userId ]} ]})).
Proof.
  intros Hctx Hne. unfold createItem, call. rewrite Hctx. cbn [truthy negb].
  rewrite bool_decide_eq_false_2 by done. cbn [negb].
  eexists. split_and!.
  - cbn. destruct (handle _ s) as [[r|e] s']; reflexivity.
  - cbn. destruct (handle _ s) as [[r|e] s']; reflexivity.
  - intros k v Hk. apply lookup_union_Some_l. exact Hk.
  - intros k Hk. rewrite lookup_union_l; [reflexivity |].
    rewrite lookup_singleton_ne by congruence. reflexivity.
  - intros Hno. rewrite lookup_union_r by exact Hno. apply lookup_singleton_eq.
Qed.

(** X3: [signup] with no string under [email] ends in a TypeError before
    any call: nothing is hashed and no user is created. *)
Theorem signup_needs_email (penv : ProcessEnv) (args : Obj) (ctx : Ctx) (s : S) :
  (forall email : string, args !! "email" <> Some (VStr email)) ->
  exists msg : string,
    run handle (signup penv args ctx) s = mkRun (Err (TypeError msg)) s [].
Proof.
  intros Hno. unfold signup.
  destruct (get args "email") as [| | | |email| |] eqn:Hget; try (eexists; reflexivity).
  apply get_VStr in Hget. by destruct (Hno email).
Qed.

(** X4: [resetPassword] with two different passwords fails with "Your
    passwords don't match" before any call: neither the clock nor the
    database is asked, whatever the token. *)
Theorem resetPassword_mismatch (penv : ProcessEnv) (args : ResetPasswordArgs)
    (ctx : Ctx) (s : S) :
  args_password args <> args_confirmPassword args ->
  run handle (resetPassword penv args ctx) s
  = mkRun (Err (JsError "Your passwords don't match")) s [].
Proof.
  intros Hne. unfold resetPassword. rewrite bool_decide_eq_false_2 by done. reflexivity.
Qed.

End Guards.

(** ** The cart, in the model *)

Lemma filter_true {A} (P : A -> Prop) `{forall x, Decision (P x)} (l : list A) :
  Forall P l -> filter P l = l.
Proof.
  induction 1 as [|x l Hx _ IH]; [reflexivity |].
  rewrite filter_cons_True by done. by rewrite IH.
Qed.


(** In a table without two rows of one id, the rows around a row have
    other ids. *)
Lemma NoDup_ids_around (l1 l2 : list CartItem) (c : CartItem) :
  NoDup (cartItem_id <$> (l1 ++ c :: l2)) ->
  Forall (fun x => cartItem_id x <> cartItem_id c) l1
  /\ Forall (fun x => cartItem_id x <> cartItem_id c) l2.
Proof.
  rewrite fmap_app, fmap_cons. intros Hnd.
  apply NoDup_app in Hnd as (_ & Hl1 & Hnd). apply NoDup_cons in Hnd as (Hl2 & _).
  split; apply Forall_forall; intros x Hx Heq.
  - apply (Hl1 (cartItem_id x)); [apply list_elem_of_fmap; by exists x |].
    rewrite Heq. apply list_elem_of_here.
  - apply Hl2. rewrite <- Heq. apply list_elem_of_fmap. by exists x.
Qed.

Section CartRuns.
Variable env : Env.

Lemma cart_matches_iff (userId itemId : string) (c : CartItem) :
  cart_matches userId itemId c = true
  <-> cartItem_user c = userId /\ cartItem_item c = itemId.
Proof. unfold cart_matches. by rewrite andb_true_iff, !bool_decide_eq_true. Qed.

Lemma addToCart_run_new (w : World) (args : CartArgs) (ctx : Ctx) (userId : string) :
  request_userId ctx = Some userId -> userId <> ""%string ->
  userId ∈ user_id <$> users (db w) ->
  is_Some (items (db w) !! args_id args) ->
  Forall (fun c => cart_matches userId (args_id args) c = false) (cartItems (db w)) ->
  let c := {| cartItem_id := fresh (cartItem_id <$> cartItems (db w));
              cartItem_quantity := env_quantity_default env;
              cartItem_user := userId;
              cartItem_item := args_id args |} in
  exec env (addToCart args ctx) w
  = mkRun (Ok c) (with_db w (with_cartItems (db w) (cartItems (db w) ++ [c])))
      [db_query_cartItems userId (args_id args);
       db_mutation_createCartItem userId (args_id args)].
Proof.
  intros Hctx Hne Huser Hitem Hnone. cbn zeta.
  unfold exec, addToCart, call. rewrite Hctx. cbn [truthy negb].
  rewrite bool_decide_eq_false_2 by done. cbn [negb bind run handle].
  rewrite filter_false.
  2: { eapply Forall_impl; [exact Hnone |]. intros x Hx. cbn. congruence. }
  cbn [bind run handle].
  unfold user_exists, item_exists. rewrite !bool_decide_eq_true_2 by done.
  reflexivity.
Qed.





(** X7: adding an item that was not in the cart and then removing the row
    that came back, as the same caller, gives the cart there was; users and
    items stay as they were throughout. *)
Theorem addToCart_then_removeFromCart (w : World) (args : CartArgs) (ctx : Ctx)
    (userId : string) :
  request_userId ctx = Some userId -> userId <> ""%string ->
  userId ∈ user_id <$> users (db w) ->
  is_Some (items (db w) !! args_id args) ->
  (forall c, c ∈ cartItems (db w) ->
     ~ (cartItem_user c = userId /\ cartItem_item c = args_id args)) ->
  let t1 := exec env (addToCart args ctx) w in
  exists c : CartItem,
    result t1 = Ok c
    /\ let t2 := exec env (removeFromCart {| args_id := cartItem_id c |} ctx) (final t1) in
       result t2 = Ok c
       /\ cartItems (db (final t2)) = cartItems (db w)
       /\ users (db (final t2)) = users (db w)
       /\ items (db (final t2)) = items (db w).
Proof.
  intros Hctx Hne Huser Hitem Hnone. cbn zeta.
  rewrite (addToCart_run_new w args ctx userId Hctx Hne Huser Hitem).
  2: { apply Forall_forall. intros x Hx. apply not_true_is_false.
       rewrite cart_matches_iff. by apply Hnone. }
  eexists. split; [reflexivity |]. cbn [final cartItem_id].
  set (c := {| cartItem_id := fresh (cartItem_id <$> cartItems (db w));
               cartItem_quantity := env_quantity_default env;
               cartItem_user := userId; cartItem_item := args_id args |}).
  assert (Hfresh : Forall (fun x => cart_has_id (cartItem_id c) x = false) (cartItems (db w))).
  { apply Forall_forall. intros x Hx. apply bool_decide_eq_false. intros Heq.
    apply (infinite_is_fresh (cartItem_id <$> cartItems (db w))).
    cbn in Heq. rewrite <- Heq. apply list_elem_of_fmap. by exists x. }
  assert (Hc : cart_has_id (cartItem_id c) c = true) by (by apply bool_decide_eq_true).
  unfold exec, removeFromCart, call. cbn [bind run handle args_id].
  cbn [db with_db with_cartItems cartItems].
  change (fresh (cartItem_id <$> cartItems (db w))) with (cartItem_id c).
  rewrite (find_app_first _ _ c [] Hfresh Hc). cbn [bind].
  rewrite Hctx. rewrite bool_decide_eq_true_2 by reflexivity. cbn [negb run handle].
  cbn [db with_db with_cartItems cartItems].
  rewrite (remove_first_app _ _ c [] Hfresh Hc). cbn.
  rewrite app_nil_r. done.
Qed.

(** X8: when the caller owns the first cart item with the id, and no two
    rows share an id, [removeFromCart] returns that row and leaves exactly
    the rows with other ids, in their order. *)
Theorem removeFromCart_owner (w : World) (args : CartArgs) (ctx : Ctx) (c : CartItem) :
  NoDup (cartItem_id <$> cartItems (db w)) ->
  find (cart_has_id (args_id args)) (cartItems (db w)) = Some c ->
  request_userId ctx = Some (cartItem_user c) ->
  let t := exec env (removeFromCart args ctx) w in
  result t = Ok c
  /\ cartItems (db (final t))
     = filter (fun x => cartItem_id x <> args_id args) (cartItems (db w))
  /\ length (cartItems (db (final t))) = pred (length (cartItems (db w)))
  /\ users (db (final t)) = users (db w)
  /\ items (db (final t)) = items (db w).
Proof.
  intros Hnd Hfind Hctx. cbn zeta.
  destruct (find_Some_split _ _ _ Hfind) as (l1 & l2 & Hl & H1 & H2).
  assert (Hid : cartItem_id c = args_id args) by (by apply bool_decide_eq_true in H2).
  rewrite Hl in Hnd. destruct (NoDup_ids_around _ _ _ Hnd) as [Hids1 Hids2].
  unfold exec, removeFromCart, call. cbn [bind run handle].
  rewrite Hfind. cbn [bind]. rewrite Hctx, bool_decide_eq_true_2 by reflexivity.
  cbn [negb run handle]. rewrite Hl, (remove_first_app _ _ _ _ H1 H2). cbn.
  split_and!; try done.
  - rewrite filter_app, filter_cons_False by (intros H; by apply H).
    rewrite !filter_true; [reflexivity | |].
    + eapply Forall_impl; [exact Hids2 |]. intros x Hx. cbn. congruence.
    + eapply Forall_impl; [exact Hids1 |]. intros x Hx. cbn. congruence.
  - rewrite !length_app. cbn. lia.
Qed.

End CartRuns.

(** ** Items, in the model *)

Section ItemRuns.
Variable env : Env.

(** X9: [updateItem] by any caller, signed in or not, on an item of the
    store: the stored row keeps its id and every property that [args] does
    not name, takes the other properties of [args], and is what comes back;
    the other items are untouched. *)
Theorem updateItem_merges (w : World) (args : Obj) (ctx : Ctx) (i : string) (row : Obj) :
  args !! "id" = Some (VStr i) ->
  items (db w) !! i = Some row ->
  let t := exec env (updateItem args ctx) w in
  exists row' : Obj,
    result t = Ok row'
    /\ items (db (final t)) !! i = Some row'
    /\ row' !! "id" = row !! "id"
    /\ (forall (k : string) (v : Val),
          k <> "id"%string -> args !! k = Some v -> row' !! k = Some v)
    /\ (forall k : string, args !! k = None -> row' !! k = row !! k)
    /\ (forall j : string, j <> i -> items (db (final t)) !! j = items (db w) !! j)
    /\ users (db (final t)) = users (db w)
    /\ cartItems (db (final t)) = cartItems (db w).
Proof.
  intros Hid Hrow. cbn zeta. unfold exec, updateItem, call.
  cbn [run handle]. replace (get args "id") with (VStr i) by (unfold get; by rewrite Hid).
  cbn [as_string mbind option_bind]. rewrite Hrow. cbn.
  eexists. split_and!; try reflexivity.
  - apply lookup_insert_eq.
  - rewrite lookup_union_r by apply lookup_delete_eq. reflexivity.
  - intros k v Hk Hv. apply lookup_union_Some_l. by rewrite lookup_delete_ne.
  - intros k Hk. rewrite lookup_union_r; [reflexivity |].
    destruct (decide (k = "id"%string)) as [->|Hne];
      [apply lookup_delete_eq | by rewrite lookup_delete_ne].
  - intros j Hj. by rewrite lookup_insert_ne.
Qed.

(** X10: [deleteItem] asks nobody who the caller is: for any context, an
    item of the store is removed and returned and the other items stay; a
    second delete of the same id fails in the database's delete, after a
    lookup that found nothing. *)
Theorem deleteItem_by_anyone (w : World) (args : Obj) (ctx ctx' : Ctx) (i : string)
    (row : Obj) :
  args !! "id" = Some (VStr i) ->
  items (db w) !! i = Some row ->
  let t := exec env (deleteItem args ctx) w in
  let t' := exec env (deleteItem args ctx') (final t) in
  result t = Ok row
  /\ items (db (final t)) = delete i (items (db w))
  /\ users (db (final t)) = users (db w)
  /\ cartItems (db (final t)) = cartItems (db w)
  /\ result t' = Err (Rejected "db.mutation.deleteItem")
  /\ calls t' = [db_query_item (VStr i); db_mutation_deleteItem (VStr i)]
  /\ final t' = final t.
Proof.
  intros Hid Hrow. cbn zeta. unfold exec, deleteItem, call.
  replace (get args "id") with (VStr i) by (unfold get; by rewrite Hid).
  cbn [bind run handle as_string mbind option_bind Resp]. rewrite Hrow.
  cbn [fmap option_fmap option_map bind run handle result final calls
       db with_db with_items items as_string mbind option_bind].
  rewrite lookup_delete_eq. cbn. done.
Qed.

End ItemRuns.

(** ** Accounts, in the model *)

Section AccountRuns.
Variable env : Env.
Variable penv : ProcessEnv.

Lemma find_user_fresh_email (us : list User) (u : User) :
  user_email u ∉ (user_email <$> us) ->
  find (user_matches (ByEmail (user_email u))) (us ++ [u]) = Some u.
Proof.
  intros Hnew. apply find_app_first; [| by apply bool_decide_eq_true].
  apply Forall_forall. intros x Hx. apply bool_decide_eq_false. intros Heq.
  apply Hnew. rewrite <- Heq. apply list_elem_of_fmap. by exists x.
Qed.

Lemma user_of_data_signup (i : string) (args : Obj) (name email h : string) :
  args !! "name" = Some (VStr name) ->
  args !! "email" = Some (VStr email) ->
  user_of_data i (<["permissions" := VObj {[ "set" := VArr [VStr "USER"] ]}]>
                    (<["password" := VStr h]> args))
  = Some {| user_id := i; user_name := name; user_email := email; user_password := h;
            user_resetToken := None; user_resetTokenExpiry := None;
            user_permissions := ["USER"]%string |}.
Proof.
  intros Hname Hemail. unfold user_of_data.
  rewrite (lookup_insert_ne _ "permissions" "name") by done.
  rewrite (lookup_insert_ne _ "password" "name") by done.
  rewrite (lookup_insert_ne _ "permissions" "email") by done.
  rewrite (lookup_insert_ne _ "password" "email") by done.
  rewrite (lookup_insert_ne _ "permissions" "password") by done.
  rewrite !lookup_insert_eq, Hname, Hemail. cbn [mbind option_bind as_string set_labels].
  rewrite lookup_singleton_eq. reflexivity.
Qed.

Lemma signup_run (w : World) (args : Obj) (ctx : Ctx) (name email h token : string) :
  args !! "name" = Some (VStr name) ->
  args !! "email" = Some (VStr email) ->
  env_bcrypt_hash env (get args "password") 10 = Some h ->
  email ∉ (user_email <$> users (db w)) ->
  env_jwt_sign env (fresh (user_id <$> users (db w))) (APP_SECRET penv) = Some token ->
  let u := {| user_id := fresh (user_id <$> users (db w));
              user_name := name; user_email := email; user_password := h;
              user_resetToken := None; user_resetTokenExpiry := None;
              user_permissions := ["USER"]%string |} in
  result (exec env (signup penv args ctx) w) = Ok u
  /\ final (exec env (signup penv args ctx) w)
     = {| db := with_users (db w) (users (db w) ++ [u]);
          response := response w ++ [SetCookie "token" token year_cookie];
          outbox := outbox w |}.
Proof.
  intros Hname Hemail Hhash Hnew Hsign. cbn zeta. unfold exec, signup, call.
  replace (get args "email") with (VStr email) by (unfold get; by rewrite Hemail).
  cbn [bind run handle]. rewrite Hhash. cbn [bind run handle].
  rewrite (user_of_data_signup _ args name email h Hname Hemail).
  cbn [user_email]. rewrite bool_decide_eq_false_2 by exact Hnew.
  cbn [bind run handle user_id]. rewrite Hsign. cbn. done.
Qed.

(** X11: a [signup] with string name and email, an email that no user has,
    a hash and a signed token: the new user is appended with an id that no
    user had, the email exactly as given, the hash as password, no reset
    token, and the permissions [USER] alone, whatever [args.permissions]
    said; the cookie "token" carries the token signed for the new id; items
    and cart are untouched. *)
Theorem signup_creates_user (w : World) (args : Obj) (ctx : Ctx)
    (name email h token : string) :
  args !! "name" = Some (VStr name) ->
  args !! "email" = Some (VStr email) ->
  env_bcrypt_hash env (get args "password") 10 = Some h ->
  email ∉ (user_email <$> users (db w)) ->
  env_jwt_sign env (fresh (user_id <$> users (db w))) (APP_SECRET penv) = Some token ->
  let t := exec env (signup penv args ctx) w in
  exists u : User,
    result t = Ok u
    /\ users (db (final t)) = users (db w) ++ [u]
    /\ (user_id u ∉ (user_id <$> users (db w)))
    /\ user_email u = email
    /\ user_password u = h
    /\ user_permissions u = ["USER"]%string
    /\ user_resetToken u = None
    /\ env_jwt_sign env (user_id u) (APP_SECRET penv) = Some token
    /\ response (final t)
       = response w ++ [SetCookie "token" token {| httpOnly := true; maxAge := 31536000000 |}]
    /\ items (db (final t)) = items (db w)
    /\ cartItems (db (final t)) = cartItems (db w).
Proof.
  intros Hname Hemail Hhash Hnew Hsign. cbn zeta.
  destruct (signup_run w args ctx name email h token Hname Hemail Hhash Hnew Hsign)
    as [-> ->].
  eexists. split_and!; try reflexivity; [| exact Hsign].
  apply infinite_is_fresh.
Qed.

(** X12: after such a [signup] with the password [password], a [signin] with
    the same email and password, checked against the stored hash, returns
    the user that [signup] returned. *)
Theorem signup_then_signin (env' : Env) (w : World) (args : Obj) (ctx ctx' : Ctx)
    (name email password h token token' : string) :
  args !! "name" = Some (VStr name) ->
  args !! "email" = Some (VStr email) ->
  args !! "password" = Some (VStr password) ->
  env_bcrypt_hash env (VStr password) 10 = Some h ->
  email ∉ (user_email <$> users (db w)) ->
  env_jwt_sign env (fresh (user_id <$> users (db w))) (APP_SECRET penv) = Some token ->
  env_bcrypt_compare env' password h = Some true ->
  env_jwt_sign env' (fresh (user_id <$> users (db w))) (APP_SECRET penv) = Some token' ->
  let t1 := exec env (signup penv args ctx) w in
  let t2 := exec env' (signin penv {| signin_email := email; signin_password := password |}
                         ctx') (final t1) in
  exists u : User, result t1 = Ok u /\ result t2 = Ok u /\ db (final t2) = db (final t1).
Proof.
  intros Hname Hemail Hpw Hhash Hnew Hsign Hcmp Hsign'. cbn zeta.
  assert (Hhash' : env_bcrypt_hash env (get args "password") 10 = Some h)
    by (unfold get; by rewrite Hpw).
  destruct (signup_run w args ctx name email h token Hname Hemail Hhash' Hnew Hsign)
    as [-> ->].
  eexists. split; [reflexivity |].
  unfold exec, signin, call. cbn [bind run handle signin_email signin_password].
  cbn [db users with_users].
  rewrite (find_user_fresh_email (users (db w))
             {| user_id := fresh (user_id <$> users (db w)); user_name := name;
                user_email := email; user_password := h; user_resetToken := None;
                user_resetTokenExpiry := None; user_permissions := ["USER"]%string |})
    by exact Hnew.
  cbn [bind run handle user_password]. rewrite Hcmp.
  cbn [bind run handle negb user_id]. rewrite Hsign'. cbn. done.
Qed.


(** X14: [signin] writes nothing, however it ends: the store and the
    outbox are as before, and the response gets either nothing or the one
    cookie "token" with the options of the session cookie. *)
Theorem signin_writes_nothing (w : World) (args : SigninArgs) (ctx : Ctx) :
  let t := exec env (signin penv args ctx) w in
  db (final t) = db w
  /\ outbox (final t) = outbox w
  /\ (response (final t) = response w
      \/ exists token,
           response (final t)
           = response w ++ [SetCookie "token" token {| httpOnly := true;
                                                       maxAge := 31536000000 |}]).
Proof.
  cbn zeta. unfold exec, signin, call. cbn [bind run handle].
  destruct (find _ _) as [u|]; cbn [bind run handle result final calls]; [| by auto].
  destruct (env_bcrypt_compare env _ _) as [[|]|];
    cbn [bind run handle reject negb result final calls]; try by auto.
  destruct (env_jwt_sign env _ _) as [token|]; cbn; [| by auto].
  split_and!; try done. right. by exists token.
Qed.

(** X15: [signout] needs no identity and changes nothing but the response:
    whatever was set on it before, the last thing on it afterwards is the
    clearing of the cookie "token"; the answer is "Goodbye!". *)
Theorem signout_clears_cookie (w : World) (ctx : Ctx) :
  let t := exec env (signout ctx) w in
  result t = Ok {| message := "Goodbye!" |}
  /\ response (final t) = response w ++ [ClearCookie "token"]
  /\ last (response (final t)) = Some (ClearCookie "token")
  /\ db (final t) = db w
  /\ outbox (final t) = outbox w
  /\ calls t = [response_clearCookie "token"].
Proof.
  cbn zeta. unfold exec, signout, call. cbn. split_and!; try done. apply last_snoc.
Qed.

End AccountRuns.

(** ** Password reset, in the model *)

Section ResetRuns.
Variable penv : ProcessEnv.
Variable makeANiceEmail : string -> string.

(** X16: [requestReset] for an email that no user has fails with "No such
    user found for email ..." after the lookup alone: no token is made,
    nothing is stored and no mail is sent. *)
Theorem requestReset_unknown_email (env : Env) (w : World) (args : RequestResetArgs)
    (ctx : Ctx) :
  (forall u : User, u ∈ users (db w) -> user_email u <> requestReset_email args) ->
  exec env (requestReset penv makeANiceEmail args ctx) w
  = mkRun (Err (JsError ("No such user found for email " ++ requestReset_email args)))
      w [db_query_user (ByEmail (requestReset_email args))].
Proof.
  intros Hnone. unfold exec, requestReset, call. cbn [bind run handle].
  rewrite find_user_None; [reflexivity |].
  intros u Hu. apply bool_decide_eq_false. by apply Hnone.
Qed.

Lemma requestReset_stores (env : Env) (w : World) (ctx : Ctx) (email : string)
    (l1 l2 : list User) (u : User) (buf : list byte) :
  users (db w) = l1 ++ u :: l2 ->
  Forall (fun x => user_matches (ByEmail email) x = false) l1 ->
  user_matches (ByEmail email) u = true ->
  env_randomBytes env 20%nat = Some buf ->
  let t := exec env (requestReset penv makeANiceEmail
                       {| requestReset_email := email |} ctx) w in
  let issued := apply_user_update
       {| data_password := None; data_resetToken := Some (Some (toString_hex buf));
          data_resetTokenExpiry := Some (Some (env_now env + 3600000));
          data_permissions_set := None |} u in
  users (db (final t)) = l1 ++ issued :: l2
  /\ response (final t) = response w
  /\ ((exists m, env_sendMail env m = true /\ mail_to m = user_email u
                 /\ result t = Ok {| message := "Thank you!" |}
                 /\ outbox (final t) = outbox w ++ [m])
      \/ (exists m, env_sendMail env m = false /\ mail_to m = user_email u
                    /\ result t = Err (Rejected "transport.sendMail")
                    /\ outbox (final t) = outbox w)).
Proof.
  intros Hl H1 H2 Hrand. cbn zeta.
  assert (Hfind : find (user_matches (ByEmail email)) (users (db w)) = Some u)
    by (rewrite Hl; by apply find_app_first).
  unfold exec, requestReset, call. cbn [bind run handle requestReset_email].
  rewrite Hfind. cbn [bind run handle]. rewrite Hrand. cbn [bind run handle].
  rewrite Hl, (update_first_app _ _ _ _ _ H1 H2). cbn [bind run handle].
  match goal with |- context [env_sendMail env ?m] =>
    set (mail := m); destruct (env_sendMail env mail) eqn:Hmail end.
  - cbn. split_and!; try done. left. by exists mail.
  - cbn. split_and!; try done. right. by exists mail.
Qed.

(** X17: when the mail transport refuses every mail for the user,
    [requestReset] fails with the transport's failure, but the token and its
    expiry are already on the user's row and stay there: the write is not
    undone, and nothing lands in the outbox. *)
Theorem requestReset_mail_failure (env : Env) (w : World) (ctx : Ctx) (email : string)
    (u : User) (buf : list byte) :
  find (user_matches (ByEmail email)) (users (db w)) = Some u ->
  env_randomBytes env 20%nat = Some buf ->
  (forall m : Mail, mail_to m = user_email u -> env_sendMail env m = false) ->
  let t := exec env (requestReset penv makeANiceEmail
                       {| requestReset_email := email |} ctx) w in
  result t = Err (Rejected "transport.sendMail")
  /\ outbox (final t) = outbox w
  /\ exists u' : User,
       find (user_matches (ByEmail email)) (users (db (final t))) = Some u'
       /\ user_resetToken u' = Some (toString_hex buf)
       /\ user_resetTokenExpiry u' = Some (env_now env + 3600000)
       /\ user_id u' = user_id u /\ user_password u' = user_password u.
Proof.
  intros Hfind Hrand Hmail. cbn zeta.
  destruct (find_Some_split _ _ _ Hfind) as (l1 & l2 & Hl & H1 & H2).
  destruct (requestReset_stores env w ctx email l1 l2 u buf Hl H1 H2 Hrand)
    as (Husers & _ & [(m & Hyes & Hto & _) | (m & _ & _ & Hres & Hout)]).
  { rewrite (Hmail m Hto) in Hyes. discriminate. }
  split; [exact Hres |]. split; [exact Hout |].
  eexists. split.
  - rewrite Husers. apply find_app_first; [exact H1 |]. exact H2.
  - by split_and!.
Qed.

(** X18: when the transport takes the mail, [requestReset] answers "Thank
    you!", puts one mail in the outbox, addressed to the email on the user's
    row, and sets no cookie: asking for a reset signs nobody in. *)
Theorem requestReset_sends_one_mail (env : Env) (w : World) (ctx : Ctx) (email : string)
    (u : User) (buf : list byte) :
  find (user_matches (ByEmail email)) (users (db w)) = Some u ->
  env_randomBytes env 20%nat = Some buf ->
  (forall m : Mail, mail_to m = user_email u -> env_sendMail env m = true) ->
  let t := exec env (requestReset penv makeANiceEmail
                       {| requestReset_email := email |} ctx) w in
  result t = Ok {| message := "Thank you!" |}
  /\ response (final t) = response w
  /\ exists m : Mail, outbox (final t) = outbox w ++ [m] /\ mail_to m = user_email u.
Proof.
  intros Hfind Hrand Hmail. cbn zeta.
  destruct (find_Some_split _ _ _ Hfind) as (l1 & l2 & Hl & H1 & H2).
  destruct (requestReset_stores env w ctx email l1 l2 u buf Hl H1 H2 Hrand)
    as (_ & Hresp & [(m & _ & Hto & Hres & Hout) | (m & Hno & Hto & _)]).
  2: { rewrite (Hmail m Hto) in Hno. discriminate. }
  split; [exact Hres |]. split; [exact Hresp |]. by exists m.
Qed.

(** X19: the other side of the window. A reset more than two hours after
    the request fails with "This token is either invalid or expired!" and
    changes nothing, though the token is the one on the row. *)
Theorem reset_too_late (env1 env2 : Env) (w : World) (ctx1 ctx2 : Ctx)
    (email password : string) (u : User) (buf : list byte) :
  find (user_matches (ByEmail email)) (users (db w)) = Some u ->
  env_randomBytes env1 20%nat = Some buf ->
  (forall x, x ∈ users (db w) -> user_resetToken x <> Some (toString_hex buf)) ->
  env_now env1 + 7200000 < env_now env2 ->
  let t1 := exec env1 (requestReset penv makeANiceEmail
                         {| requestReset_email := email |} ctx1) w in
  let t2 := exec env2 (resetPassword penv
                         {| args_resetToken := toString_hex buf; args_password := password;
                            args_confirmPassword := password |} ctx2) (final t1) in
  result t2 = Err (JsError "This token is either invalid or expired!")
  /\ final t2 = final t1.
Proof.
  intros Hfind Hrand Hfresh Hlate. cbn zeta.
  destruct (find_Some_split _ _ _ Hfind) as (l1 & l2 & Hl & H1 & H2).
  destruct (requestReset_stores env1 w ctx1 email l1 l2 u buf Hl H1 H2 Hrand)
    as (Husers & _ & _).
  unfold exec in *. unfold resetPassword, call.
  cbn [args_password args_confirmPassword args_resetToken].
  rewrite bool_decide_eq_true_2 by done. cbn [negb bind run handle].
  rewrite Husers.
  rewrite (proj2 (query_users_nil _ _ _)); [done |].
  intros x Hx [Htok (e & He & Hle)].
  apply elem_of_app in Hx as [Hx | Hx]; [| apply elem_of_cons in Hx as [-> | Hx]].
  - apply (Hfresh x); [rewrite Hl; set_solver | exact Htok].
  - cbn in He. injection He as <-. lia.
  - apply (Hfresh x); [rewrite Hl; set_solver | exact Htok].
Qed.

End ResetRuns.

Section ResetOnce.
Variable penv : ProcessEnv.

(** X20: a reset token works once. With distinct emails in the store and
    the token on one row only, a [resetPassword] that succeeds takes the
    token off the row, and a second one with the same token, at any time and
    with any password, fails with "This token is either invalid or
    expired!". *)
Theorem reset_token_single_use (env env' : Env) (w : World) (ctx ctx' : Ctx)
    (tok password password' h token : string) (l1 l2 : list User) (u : User) :
  users (db w) = l1 ++ u :: l2 ->
  NoDup (user_email <$> users (db w)) ->
  token_accepted tok (env_now env) u ->
  (forall x, x ∈ l1 ++ l2 -> user_resetToken x <> Some tok) ->
  env_bcrypt_hash env (VStr password) 10 = Some h ->
  env_jwt_sign env (user_id u) (APP_SECRET penv) = Some token ->
  let t1 := exec env (resetPassword penv
                        {| args_resetToken := tok; args_password := password;
                           args_confirmPassword := password |} ctx) w in
  let t2 := exec env' (resetPassword penv
                         {| args_resetToken := tok; args_password := password';
                            args_confirmPassword := password' |} ctx') (final t1) in
  (exists u', result t1 = Ok u' /\ user_id u' = user_id u /\ user_password u' = h
              /\ user_resetToken u' = None)
  /\ result t2 = Err (JsError "This token is either invalid or expired!")
  /\ final t2 = final t1.
Proof.
  intros Hl Hnd Hacc Hothers Hhash Hsign. cbn zeta.
  assert (Hl1 : forall x, x ∈ l1 -> ~ token_accepted tok (env_now env) x).
  { intros x Hx [Htok _]. apply (Hothers x); [set_solver | exact Htok]. }
  assert (H1 : Forall (fun x => user_matches (ByEmail (user_email u)) x = false) l1).
  { rewrite Hl, fmap_app, fmap_cons in Hnd.
    apply NoDup_app in Hnd as (_ & Hd & _).
    apply Forall_forall. intros x Hx. apply bool_decide_eq_false. intros Heq.
    apply (Hd (user_email x)); [apply list_elem_of_fmap; by exists x |].
    rewrite Heq. apply list_elem_of_here. }
  assert (H2 : user_matches (ByEmail (user_email u)) u = true)
    by (by apply bool_decide_eq_true).
  set (u' := apply_user_update
       {| data_password := Some h; data_resetToken := Some None;
          data_resetTokenExpiry := Some None; data_permissions_set := None |} u).
  assert (Hrun1 : exec env (resetPassword penv
                        {| args_resetToken := tok; args_password := password;
                           args_confirmPassword := password |} ctx) w
                  = mkRun (Ok u')
                      {| db := with_users (db w) (l1 ++ u' :: l2);
                         response := response w ++ [SetCookie "token" token year_cookie];
                         outbox := outbox w |}
                      [Date_now; db_query_users tok (env_now env - 3600000);
                       bcrypt_hash (VStr password) 10;
                       db_mutation_updateUser (ByEmail (user_email u))
                         {| data_password := Some h; data_resetToken := Some None;
                            data_resetTokenExpiry := Some None;
                            data_permissions_set := None |};
                       jwt_sign (user_id u) (APP_SECRET penv);
                       response_cookie "token" token year_cookie]).
  { unfold exec, resetPassword, call.
    cbn [args_password args_confirmPassword args_resetToken].
    rewrite bool_decide_eq_true_2 by done. cbn [negb bind run handle].
    rewrite Hl, (query_users_first _ _ _ _ _ Hl1 Hacc).
    cbn [bind run handle]. rewrite Hhash. cbn [bind run handle].
    rewrite Hl, (update_first_app _ _ _ _ _ H1 H2).
    cbn [bind run handle user_id apply_user_update]. rewrite Hsign. reflexivity. }
  rewrite Hrun1. cbn [result final]. split; [by exists u' |].
  unfold exec, resetPassword, call.
  cbn [args_password args_confirmPassword args_resetToken].
  rewrite bool_decide_eq_true_2 by done. cbn [negb bind run handle].
  cbn [db users with_users].
  rewrite (proj2 (query_users_nil _ _ _)); [done |].
  intros x Hx [Htok _].
  apply elem_of_app in Hx as [Hx | Hx]; [| apply elem_of_cons in Hx as [-> | Hx]].
  - apply (Hothers x); [set_solver | exact Htok].
  - discriminate Htok.
  - apply (Hothers x); [set_solver | exact Htok].
Qed.

End ResetOnce.

(** ** The further properties at the sample shop *)

Lemma login_guards_witness :
  run (handle sample_env) (createItem shoes with_empty_id) shop
  = mkRun (Err (JsError "You must be logged in to post an item!")) shop []
  /\ run (handle sample_env)
       (updatePermissions {| args_permissions := ["ADMIN"]%string; args_userId := "u1" |}
          anonymous) shop
     = mkRun (Err (JsError "You must be logged in!")) shop []
  /\ run (handle sample_env) (addToCart {| args_id := "i1" |} with_empty_id) shop
     = mkRun (Err (JsError "You must be signed in to add items!")) shop [].
Proof.
  destruct (login_guards (handle sample_env) with_empty_id shop eq_refl) as (H1 & _ & H3).
  destruct (login_guards (handle sample_env) anonymous shop eq_refl) as (_ & H2 & _).
  split; [apply H1 |]. split; [apply H2 | apply H3].
Defined.

(** Alice posts a hat whose arguments name Bob as [user]: the create is
    called with Bob connected. *)
Lemma createItem_payload_witness :
  exists data : Obj,
    calls (exec sample_env (createItem hat_for_bob as_alice) shop)
    = [db_mutation_createItem data]
    /\ data !! "title" = Some (VStr "Hat")
    /\ data !! "user" = Some (VObj {[ "connect" := VObj {[ "id" := VStr "u2" ]} ]}).
Proof.
  destruct (createItem_payload (handle sample_env) hat_for_bob as_alice shop "u1" eq_refl)
    as (data & Hcalls & _ & Hargs & _); [discriminate |].
  exists data. split; [exact Hcalls |]. split; apply Hargs; reflexivity.
Defined.

Lemma signup_needs_email_witness :
  exists msg : string,
    run (handle sample_env)
      (signup sample_process_env {[ "email" := VNum 7; "password" := VStr "x" ]} anonymous)
      shop
    = mkRun (Err (TypeError msg)) shop [].
Proof.
  apply (signup_needs_email (handle sample_env)).
  intros email Hemail. vm_compute in Hemail. discriminate.
Defined.

Lemma resetPassword_mismatch_witness :
  run (handle sample_env)
    (resetPassword sample_process_env
       {| args_resetToken := "c0ffee"; args_password := "aria";
          args_confirmPassword := "area" |} anonymous) shop
  = mkRun (Err (JsError "Your passwords don't match")) shop [].
Proof. apply (resetPassword_mismatch (handle sample_env)). discriminate. Defined.



Lemma addToCart_then_removeFromCart_witness :
  exists c : CartItem,
    result (exec sample_env (addToCart {| args_id := "i1" |} as_alice) shop) = Ok c
    /\ cartItems
         (db (final (exec sample_env (removeFromCart {| args_id := cartItem_id c |} as_alice)
                       (final (exec sample_env (addToCart {| args_id := "i1" |} as_alice)
                                 shop)))))
       = [bobs_cart_item].
Proof.
  destruct (addToCart_then_removeFromCart sample_env shop {| args_id := "i1" |} as_alice
              "u1" eq_refl) as (c & Hadd & _ & Hrows & _).
  - discriminate.
  - apply list_elem_of_In. cbn. tauto.
  - exists shoes. reflexivity.
  - intros c Hc [Huser _]. each_row Hc. discriminate.
  - exists c. split; [exact Hadd | exact Hrows].
Defined.

Lemma removeFromCart_owner_witness :
  let t := exec sample_env (removeFromCart {| args_id := "c1" |} as_bob) shop in
  result t = Ok bobs_cart_item /\ cartItems (db (final t)) = [].
Proof.
  destruct (removeFromCart_owner sample_env shop {| args_id := "c1" |} as_bob
              bobs_cart_item) as (Hresult & Hrows & _).
  - apply NoDup_singleton.
  - reflexivity.
  - reflexivity.
  - split; [exact Hresult | exact Hrows].
Defined.

(** Nobody in particular renames the shoes and raises their price. *)
Lemma updateItem_merges_witness :
  exists row' : Obj,
    result (exec sample_env (updateItem boots_update anonymous) shop) = Ok row'
    /\ row' !! "id" = Some (VStr "i1")
    /\ row' !! "title" = Some (VStr "Boots")
    /\ row' !! "price" = Some (VNum 120).
Proof.
  assert (Hid : boots_update !! "id" = Some (VStr "i1")) by reflexivity.
  assert (Hrow : items (db shop) !! "i1" = Some shoes) by reflexivity.
  destruct (updateItem_merges sample_env shop boots_update anonymous "i1" shoes Hid Hrow)
    as (row' & Hresult & _ & Hkeep & Hnew & _).
  exists row'. split; [exact Hresult |]. split; [rewrite Hkeep; reflexivity |].
  split; apply Hnew; (discriminate || reflexivity).
Defined.

Lemma deleteItem_by_anyone_witness :
  let args : Obj := {[ "id" := VStr "i1" ]} in
  let t := exec sample_env (deleteItem args anonymous) shop in
  result t = Ok shoes
  /\ items (db (final t)) !! "i1" = None
  /\ result (exec sample_env (deleteItem args as_alice) (final t))
     = Err (Rejected "db.mutation.deleteItem").
Proof.
  cbn zeta.
  assert (Hid : ({[ "id" := VStr "i1" ]} : Obj) !! "id" = Some (VStr "i1")) by reflexivity.
  assert (Hrow : items (db shop) !! "i1" = Some shoes) by reflexivity.
  destruct (deleteItem_by_anyone sample_env shop {[ "id" := VStr "i1" ]} anonymous as_alice
              "i1" shoes Hid Hrow) as (Hresult & Hitems & _ & _ & Hagain & _).
  split; [exact Hresult |]. split; [| exact Hagain].
  rewrite Hitems. apply lookup_delete_eq.
Defined.

(** Dave signs up with capitals in his email, and signs in. *)
Lemma signup_creates_user_witness :
  let t := exec sample_env (signup sample_process_env dave_signup anonymous) shop in
  exists u : User,
    result t = Ok u
    /\ users (db (final t)) = [alice; bob; carol; u]
    /\ user_email u = "Dave@Example.COM"%string
    /\ user_password u = "$2a$10$hunter2"%string
    /\ user_permissions u = ["USER"]%string
    /\ response (final t)
       = [SetCookie "token" "jwt.0" {| httpOnly := true; maxAge := 31536000000 |}].
Proof.
  cbn zeta.
  assert (Hname : dave_signup !! "name" = Some (VStr "Dave")) by reflexivity.
  assert (Hemail : dave_signup !! "email" = Some (VStr "Dave@Example.COM")) by reflexivity.
  assert (Hhash : env_bcrypt_hash sample_env (get dave_signup "password") 10
                  = Some "$2a$10$hunter2"%string) by reflexivity.
  assert (Hsign : env_jwt_sign sample_env (fresh (user_id <$> users (db shop)))
                    (APP_SECRET sample_process_env) = Some "jwt.0"%string) by reflexivity.
  destruct (signup_creates_user sample_env sample_process_env shop dave_signup anonymous
              "Dave" "Dave@Example.COM" "$2a$10$hunter2" "jwt.0" Hname Hemail Hhash)
    as (u & Hresult & Husers & _ & He & Hp & Hperm & _ & _ & Hcookie & _).
  - intros Hin. apply list_elem_of_In in Hin. cbn in Hin. intuition discriminate.
  - exact Hsign.
  - exists u. split_and!; [exact Hresult | exact Husers | exact He | exact Hp | exact Hperm
                          | exact Hcookie].
Defined.

Lemma signup_then_signin_witness :
  let t1 := exec sample_env (signup sample_process_env dave_signup anonymous) shop in
  let t2 := exec sample_env_later
              (signin sample_process_env
                 {| signin_email := "Dave@Example.COM"; signin_password := "hunter2" |}
                 anonymous) (final t1) in
  exists u : User, result t1 = Ok u /\ result t2 = Ok u.
Proof.
  cbn zeta.
  assert (Hname : dave_signup !! "name" = Some (VStr "Dave")) by reflexivity.
  assert (Hemail : dave_signup !! "email" = Some (VStr "Dave@Example.COM")) by reflexivity.
  assert (Hpw : dave_signup !! "password" = Some (VStr "hunter2")) by reflexivity.
  assert (Hsign : env_jwt_sign sample_env (fresh (user_id <$> users (db shop)))
                    (APP_SECRET sample_process_env) = Some "jwt.0"%string) by reflexivity.
  assert (Hsign' : env_jwt_sign sample_env_later (fresh (user_id <$> users (db shop)))
                     (APP_SECRET sample_process_env) = Some "jwt.0"%string) by reflexivity.
  destruct (signup_then_signin sample_env sample_process_env sample_env_later shop
              dave_signup anonymous anonymous "Dave" "Dave@Example.COM" "hunter2"
              "$2a$10$hunter2" "jwt.0" "jwt.0" Hname Hemail Hpw eq_refl)
    as (u & H1 & H2 & _).
  - intros Hin. apply list_elem_of_In in Hin. cbn in Hin. intuition discriminate.
  - exact Hsign.
  - reflexivity.
  - exact Hsign'.
  - exists u. split; [exact H1 | exact H2].
Defined.


Lemma requestReset_unknown_email_witness :
  exec sample_env
    (requestReset sample_process_env (fun text => text)
       {| requestReset_email := "nobody@example.com" |} anonymous) shop
  = mkRun (Err (JsError "No such user found for email nobody@example.com")) shop
      [db_query_user (ByEmail "nobody@example.com")].
Proof.
  apply (requestReset_unknown_email sample_process_env (fun text => text) sample_env shop
           {| requestReset_email := "nobody@example.com" |} anonymous).
  intros u Hu. each_row Hu; discriminate.
Defined.

(** Alice asks for a reset while the transport is down: no mail, but her
    row has the token. *)
Lemma requestReset_mail_failure_witness :
  let t := exec sample_env_no_mail
             (requestReset sample_process_env (fun text => text)
                {| requestReset_email := "Alice@Example.com" |} anonymous) shop in
  result t = Err (Rejected "transport.sendMail")
  /\ outbox (final t) = []
  /\ exists u' : User,
       find (user_matches (ByEmail "Alice@Example.com")) (users (db (final t))) = Some u'
       /\ user_resetToken u' = Some (toString_hex (replicate 20 x2a%byte))
       /\ user_resetTokenExpiry u' = Some 10400000.
Proof.
  cbn zeta.
  destruct (requestReset_mail_failure sample_process_env (fun text => text)
              sample_env_no_mail shop anonymous "Alice@Example.com" alice
              (replicate 20 x2a%byte) eq_refl eq_refl)
    as (Hresult & Hout & u' & Hfind & Htok & Hexp & _).
  - intros m _. reflexivity.
  - split; [exact Hresult |]. split; [exact Hout |].
    exists u'. split; [exact Hfind |]. split; [exact Htok | exact Hexp].
Defined.

Lemma requestReset_sends_one_mail_witness :
  let t := exec sample_env
             (requestReset sample_process_env (fun text => text)
                {| requestReset_email := "Alice@Example.com" |} anonymous) shop in
  result t = Ok {| message := "Thank you!" |}
  /\ response (final t) = []
  /\ exists m : Mail, outbox (final t) = [m] /\ mail_to m = "Alice@Example.com"%string.
Proof.
  cbn zeta.
  destruct (requestReset_sends_one_mail sample_process_env (fun text => text)
              sample_env shop anonymous "Alice@Example.com" alice
              (replicate 20 x2a%byte) eq_refl eq_refl)
    as (Hresult & Hresp & m & Hout & Hto).
  - intros m _. reflexivity.
  - split; [exact Hresult |]. split; [exact Hresp |]. exists m. split; [exact Hout | exact Hto].
Defined.

(** Alice comes back two hours and a second after asking. *)
Lemma reset_too_late_witness :
  let t1 := exec sample_env
              (requestReset sample_process_env (fun text => text)
                 {| requestReset_email := "Alice@Example.com" |} anonymous) shop in
  let t2 := exec sample_env_too_late
              (resetPassword sample_process_env
                 {| args_resetToken := toString_hex (replicate 20 x2a%byte);
                    args_password := "rabbit"; args_confirmPassword := "rabbit" |}
                 anonymous) (final t1) in
  result t2 = Err (JsError "This token is either invalid or expired!")
  /\ final t2 = final t1.
Proof.
  cbn zeta.
  apply (reset_too_late sample_process_env (fun text => text) sample_env
           sample_env_too_late shop anonymous anonymous "Alice@Example.com" "rabbit"
           alice (replicate 20 x2a%byte)).
  - reflexivity.
  - reflexivity.
  - intros x Hx. each_row Hx; vm_compute; discriminate.
  - cbn. lia.
Defined.

(** Carol resets her password with her token, and tries the token again a
    minute later. *)
Lemma reset_token_single_use_witness :
  let t1 := exec sample_env
              (resetPassword sample_process_env
                 {| args_resetToken := "c0ffee"; args_password := "aria";
                    args_confirmPassword := "aria" |} anonymous) shop in
  let t2 := exec sample_env_later
              (resetPassword sample_process_env
                 {| args_resetToken := "c0ffee"; args_password := "duet";
                    args_confirmPassword := "duet" |} anonymous) (final t1) in
  (exists u', result t1 = Ok u' /\ user_id u' = "u3"%string
              /\ user_password u' = "$2a$10$aria"%string /\ user_resetToken u' = None)
  /\ result t2 = Err (JsError "This token is either invalid or expired!").
Proof.
  cbn zeta.
  destruct (reset_token_single_use sample_process_env sample_env sample_env_later shop
              anonymous anonymous "c0ffee" "aria" "duet" "$2a$10$aria" "jwt.u3"
              [alice; bob] [] carol eq_refl) as (Hfirst & Hsecond & _).
  - apply (bool_decide_unpack _). vm_compute. exact I.
  - split; [reflexivity |]. exists 5000000. split; [reflexivity |]. cbn. lia.
  - intros x Hx Htok. each_row Hx; discriminate.
  - reflexivity.
  - reflexivity.
  - split; [exact Hfirst | exact Hsecond].
Defined.
